(** * PrepWise (AI interview preparation): server actions and the voice agent

    A shallow embedding of
    - [lib/actions/auth.action.ts]    (signUp, signIn, setSessionCookie,
                                       getCurrentUser, isAuthenticated,
                                       signOut),
    - [lib/actions/general.action.ts] (getInterviewsByUserId,
                                       getLatestInterviews, getInterviewById,
                                       createFeedback,
                                       getFeedbackByInterviewId),
    - [components/Agent.tsx]          (the call state machine and what the
                                       page renders of it),
    - [components/AuthForm.tsx]       (onSubmit),
    followed by the properties of the specification that concern them and
    by further properties of the code.

    The identity provider (its server and its client SDK), the document
    store, the hosted model and the voice channel are external
    collaborators.  What they answer is taken as a parameter ([Services],
    [ClientAuth]); what the code does with the answers is transcribed
    from the source.  What the server actions print on the
    console is left out. *)

From Stdlib Require Import String Ascii List Bool Arith ZArith Lia.
From stdpp Require Import base option list sorting gmap strings pretty.
Import ListNotations.

Local Open Scope string_scope.
Local Open Scope list_scope.

(* ===================================================================== *)
(** * Promises: an awaited call resolves to a value or rejects *)
(* ===================================================================== *)

(** A thrown JavaScript error.  The actions only ever look at [e.code]. *)
Record JsError := mkError {
  code : option string;
  text : string
}.

Inductive completion (A : Type) : Type :=
| Resolved (a : A)
| Rejected (e : JsError).
Arguments Resolved {A} a.
Arguments Rejected {A} e.

(** [e.code === c]: an error without a code compares unequal. *)
Definition code_is (e : JsError) (c : string) : bool :=
  match code e with
  | Some c' => String.eqb c' c
  | None => false
  end.

(* ===================================================================== *)
(** * Data model *)
(* ===================================================================== *)

(** The fields of a document of the [users] collection.  [signUp] writes
    [name] and [email]; [getCurrentUser] spreads whatever is stored. *)
Abbreviation UserData := (gmap string string).

(** What [doc(id).get()] resolves to. *)
Record DocumentSnapshot := mkSnapshot {
  snap_id : string;
  snap_data : option UserData
}.

(** [snapshot.exists] *)
Definition snap_exists (s : DocumentSnapshot) : bool :=
  match snap_data s with Some _ => true | None => false end.

(** [snapshot.data()], as an object to spread: nothing for a missing
    document. *)
Definition snap_data_ (s : DocumentSnapshot) : UserData :=
  default ∅ (snap_data s).

(** Modelled from the spec: the [Interview] type, whose declaration is not
    among the sources; the queries read [userId], [createdAt] and
    [finalized]. *)
Record Interview := mkInterview {
  interview_id : string;
  interview_userId : string;
  interview_role : string;
  interview_questions : list string;
  interview_finalized : bool;
  interview_createdAt : string
}.

Inductive Role := User | System | Assistant.

Definition role_string (r : Role) : string :=
  match r with
  | User => "user"
  | System => "system"
  | Assistant => "assistant"
  end.

(** [SavedMessage] of Agent.tsx; also the element type of the transcript
    handed to [createFeedback]. *)
Record SavedMessage := mkSaved {
  role : Role;
  content : string
}.

(** Modelled from the spec: the object the structured generation call
    answers with ([feedbackSchema] is not among the sources).
    [createFeedback] copies its five fields without looking into them. *)
Record FeedbackObject := mkFeedbackObject {
  totalScore : Z;
  categoryScores : list (string * Z);
  strengths : list string;
  areasForImprovement : list string;
  finalAssessment : string
}.

(** A document of the [feedback] collection.  The identifiers are stored
    the way the caller passed them; the Agent passes [interviewId!] and
    [userId!], which are [undefined] ([None]) when the prop is absent. *)
Record Feedback := mkFeedback {
  feedback_id : string;
  feedback_interviewId : option string;
  feedback_userId : option string;
  feedback_object : FeedbackObject;
  feedback_createdAt : string
}.

(** An entry of the Next.js cookie store. *)
Record Cookie := mkCookie {
  cookie_value : string;
  cookie_maxAge : N;
  cookie_httpOnly : bool;
  cookie_secure : bool;
  cookie_path : string;
  cookie_sameSite : string
}.

(** Everything the server actions read or write. *)
Record World := mkWorld {
  cookieStore : gmap string Cookie;
  users : gmap string UserData;
  interviews : list Interview;
  feedback : list Feedback
}.

(* ===================================================================== *)
(** * External collaborators *)
(* ===================================================================== *)

(** The calls to the document store, one per call site. *)
Inductive StoreCall :=
| UsersGet (uid : string)
| UsersSet (uid : string)
| InterviewsByUser (userId : string)
| InterviewsLatest (userId : string)
| InterviewGet (id : string)
| FeedbackAdd
| FeedbackQuery.

Record UserRecord := mkUserRecord {
  record_uid : string;
  record_email : string
}.

Record DecodedClaims := mkClaims {
  claims_uid : string
}.

Record GenerateRequest := mkRequest {
  req_model : string;
  req_prompt : string;
  req_system : string
}.

(** The answers of the outside world.
    - [getUserByEmail] may reject, or resolve to a record or to nothing
      ([None]: a value on which [!userRecord] holds); the Admin SDK of the
      provider rejects with [auth/user-not-found] when no account has
      the email;
    - [store_fault] says which store call rejects (network, permission);
      a call that does not reject is served from [World];
    - [autoId] is the identifier the store gives an added document and
      [now] is [new Date().toISOString()]. *)
Record Services := mkServices {
  getUserByEmail : string -> completion (option UserRecord);
  createSessionCookie : string -> N -> completion string;
  verifySessionCookie : string -> bool -> completion DecodedClaims;
  generateObject : GenerateRequest -> completion FeedbackObject;
  store_fault : StoreCall -> option JsError;
  autoId : list Feedback -> string;
  now : string;
  NODE_ENV : string
}.

(* ===================================================================== *)
(** * The monad of server actions: state and rejection *)
(* ===================================================================== *)

Definition Server (A : Type) : Type := World -> completion A * World.

Definition ret {A} (a : A) : Server A := fun w => (Resolved a, w).

Definition throw {A} (e : JsError) : Server A := fun w => (Rejected e, w).

Definition bind {A B} (m : Server A) (k : A -> Server B) : Server B :=
  fun w =>
    match m w with
    | (Resolved a, w') => k a w'
    | (Rejected e, w') => (Rejected e, w')
    end.

(** [try { body } catch (e) { handler }] *)
Definition try_catch {A} (body : Server A) (handler : JsError -> Server A)
  : Server A :=
  fun w =>
    match body w with
    | (Resolved a, w') => (Resolved a, w')
    | (Rejected e, w') => handler e w'
    end.

(** [await] of an answer of the outside world. *)
Definition await {A} (c : completion A) : Server A := fun w => (c, w).

Definition gets {A} (f : World -> A) : Server A := fun w => (Resolved (f w), w).

Definition modify (f : World -> World) : Server unit :=
  fun w => (Resolved tt, f w).

Declare Scope server_scope.
Delimit Scope server_scope with server.
Notation "'let!' x ':=' c 'in' k" := (bind c (fun x => k))
  (at level 10, x name, c at level 100, k at level 200) : server_scope.
Notation "'do!' c 'in' k" := (bind c (fun _ => k))
  (at level 10, c at level 100, k at level 200) : server_scope.
Local Open Scope server_scope.

(* ===================================================================== *)
(** * The document store *)
(* ===================================================================== *)

(** A store call first consults [store_fault]. *)
Definition store_call {A} (sv : Services) (c : StoreCall) (served : Server A)
  : Server A :=
  match store_fault sv c with
  | Some e => throw e
  | None => served
  end.

(** [db.collection('users').doc(uid).get()] *)
Definition users_doc_get (sv : Services) (uid : string)
  : Server DocumentSnapshot :=
  store_call sv (UsersGet uid)
    (gets (fun w => mkSnapshot uid (users w !! uid))).

Definition set_users (f : gmap string UserData -> gmap string UserData)
  (w : World) : World :=
  mkWorld (cookieStore w) (f (users w)) (interviews w) (feedback w).

Definition set_cookieStore (f : gmap string Cookie -> gmap string Cookie)
  (w : World) : World :=
  mkWorld (f (cookieStore w)) (users w) (interviews w) (feedback w).

Definition set_feedback (f : list Feedback -> list Feedback)
  (w : World) : World :=
  mkWorld (cookieStore w) (users w) (interviews w) (f (feedback w)).

(** [db.collection('users').doc(uid).set(data)]: replaces the document. *)
Definition users_doc_set (sv : Services) (uid : string) (data : UserData)
  : Server unit :=
  store_call sv (UsersSet uid) (modify (set_users (insert uid data))).

(* ===================================================================== *)
(** * lib/actions/auth.action.ts *)
(* ===================================================================== *)

(** [const ONE_WEEK = 60 * 60 * 24 * 7] *)
Definition ONE_WEEK : N := 60 * 60 * 24 * 7.

Record SignUpParams := mkSignUp {
  signUp_uid : string;
  signUp_name : string;
  signUp_email : string;
  signUp_password : string
}.

Record SignInParams := mkSignIn {
  signIn_email : string;
  signIn_idToken : string
}.

(** [{success, message}] *)
Record AuthResult := mkAuthResult {
  success : bool;
  message : string
}.

(** [result.success] of a resolved call; a rejected one has none. *)
Definition success_of (c : completion AuthResult) : bool :=
  match c with
  | Resolved r => success r
  | Rejected _ => false
  end.

Definition signUp (sv : Services) (params : SignUpParams) : Server AuthResult :=
  let uid := signUp_uid params in
  let name := signUp_name params in
  let email := signUp_email params in
  try_catch
    (let! userRecord := users_doc_get sv uid in
     if snap_exists userRecord then
       ret (mkAuthResult false "User already exists. Please sign in instead.")
     else
       do! users_doc_set sv uid
             (<["name" := name]> (<["email" := email]> ∅)) in
       ret (mkAuthResult true "Account created successfully. Please sign in."))
    (fun e =>
       if code_is e "auth/email-already-exists" then
         ret (mkAuthResult false "This email is already in use.")
       else
         ret (mkAuthResult false "Failed to create an account")).

Definition setSessionCookie (sv : Services) (idToken : string) : Server unit :=
  let! sessionCookie := await (createSessionCookie sv idToken (ONE_WEEK * 1000)) in
  modify (set_cookieStore
    (insert "session"
       (mkCookie sessionCookie ONE_WEEK true
          (String.eqb (NODE_ENV sv) "production") "/" "lax"))).

(** An [async] function that falls off its end resolves to [undefined]:
    the result of [signIn] is [None] then. *)
Definition signIn (sv : Services) (params : SignInParams)
  : Server (option AuthResult) :=
  let email := signIn_email params in
  let idToken := signIn_idToken params in
  try_catch
    (let! userRecord := await (getUserByEmail sv email) in
     match userRecord with
     | None =>
         ret (Some (mkAuthResult false
                      "User does not exist. Create an account instead."))
     | Some _ =>
         do! setSessionCookie sv idToken in
         ret None
     end)
    (fun e => ret (Some (mkAuthResult false "Failed to log into an account."))).

(** [cookieStore.get('session')?.value] *)
Definition session_value (w : World) : option string :=
  cookie_value <$> (cookieStore w !! "session").

(** The [User] that [getCurrentUser] answers with:
    [{...userRecord.data(), id: userRecord.id}]. *)
Definition with_id (id : string) (data : UserData) : UserData :=
  <["id" := id]> data.

Definition getCurrentUser (sv : Services) : Server (option UserData) :=
  let! sessionCookie := gets session_value in
  match sessionCookie with
  | None => ret None                                 (* undefined is falsy *)
  | Some cookie =>
      if String.eqb cookie "" then ret None          (* so is the empty string *)
      else
        try_catch
          (let! decodedClaims := await (verifySessionCookie sv cookie true) in
           let! userRecord := users_doc_get sv (claims_uid decodedClaims) in
           if negb (snap_exists userRecord) then ret None
           else ret (Some (with_id (snap_id userRecord) (snap_data_ userRecord))))
          (fun e => ret None)
  end.

(** [!!user] *)
Definition truthy {A} (o : option A) : bool :=
  match o with Some _ => true | None => false end.

Definition isAuthenticated (sv : Services) : Server bool :=
  let! user := getCurrentUser sv in
  ret (truthy user).

(** [redirect(path)] of next/navigation does not return: it throws the
    signal the framework turns into the redirection. *)
Definition redirect {A} (path : string) : Server A :=
  throw (mkError (Some "NEXT_REDIRECT") path).

Definition signOut (sv : Services) : Server unit :=
  do! modify (set_cookieStore (delete "session")) in
  redirect "/sign-in".

(* ===================================================================== *)
(** * lib/actions/general.action.ts *)
(* ===================================================================== *)

(** ** Queries on the [interviews] collection

    [orderBy('createdAt', 'desc')]: the timestamps are ISO strings, which
    the store compares as strings.  The sort is the stable insertion sort;
    the store's own order among equal timestamps is not relied upon. *)
Fixpoint insert_desc (x : Interview) (l : list Interview) : list Interview :=
  match l with
  | [] => [x]
  | y :: l' =>
      if String.leb (interview_createdAt y) (interview_createdAt x)
      then x :: y :: l'
      else y :: insert_desc x l'
  end.

Fixpoint orderBy_createdAt_desc (l : list Interview) : list Interview :=
  match l with
  | [] => []
  | x :: l' => insert_desc x (orderBy_createdAt_desc l')
  end.

(** [.where('finalized', '==', true).where('userId', '!=', userId)] *)
Definition discoverable (userId : string) (i : Interview) : bool :=
  interview_finalized i && negb (String.eqb (interview_userId i) userId).

Definition getInterviewsByUserId (sv : Services) (userId : string)
  : Server (list Interview) :=
  store_call sv (InterviewsByUser userId)
    (gets (fun w =>
       orderBy_createdAt_desc
         (List.filter (fun i => String.eqb (interview_userId i) userId)
            (interviews w)))).

Record GetLatestInterviewsParams := mkLatest {
  latest_userId : string;
  latest_limit : option nat
}.

(** [const { userId, limit = 20 } = params].  The final [docs.map] rebuilds
    each interview from its id and its data, which is the identity on
    [Interview]. *)
Definition getLatestInterviews (sv : Services) (params : GetLatestInterviewsParams)
  : Server (list Interview) :=
  let userId := latest_userId params in
  let limit := default 20 (latest_limit params) in
  store_call sv (InterviewsLatest userId)
    (gets (fun w =>
       take limit
         (orderBy_createdAt_desc
            (List.filter (discoverable userId) (interviews w))))).

(** [interview.data()]: the fields of the document, without its id. *)
Record InterviewData := mkInterviewData {
  data_userId : string;
  data_role : string;
  data_questions : list string;
  data_finalized : bool;
  data_createdAt : string
}.

Definition interview_data (i : Interview) : InterviewData :=
  mkInterviewData (interview_userId i) (interview_role i)
    (interview_questions i) (interview_finalized i) (interview_createdAt i).

(** [doc(id).get()] on [interviews], then [interview.data()], which is
    [undefined] for a missing document.  Unlike the two list queries, the
    answer is not given the document id. *)
Definition getInterviewById (sv : Services) (id : string)
  : Server (option InterviewData) :=
  store_call sv (InterviewGet id)
    (gets (fun w =>
       interview_data
         <$> List.find (fun i => String.eqb (interview_id i) id) (interviews w))).

(** ** createFeedback *)

Record CreateFeedbackParams := mkCreateFeedback {
  params_interviewId : option string;
  params_userId : option string;
  params_transcript : list SavedMessage
}.

(** [{success, feedbackId?}] *)
Record FeedbackResult := mkFeedbackResult {
  feedback_success : bool;
  feedbackId : option string
}.

Definition newline : string := String (ascii_of_nat 10) EmptyString.

(** [transcript.map(s => `- ${s.role}: ${s.content}\n`).join('')] *)
Definition formatTranscript (transcript : list SavedMessage) : string :=
  String.concat ""
    (map (fun sentence =>
            "- " +:+ role_string (role sentence) +:+ ": "
                 +:+ content sentence +:+ newline)
         transcript).

Definition feedbackPrompt (formattedTranscript : string) : string :=
  "You are an AI interviewer analyzing a mock interview. Your task is to evaluate the candidate based on structured categories. Be thorough and detailed in your analysis. Don't be lenient with the candidate. If there are mistakes or areas for improvement, point them out.
        Transcript:
        " +:+ formattedTranscript +:+ "

        Please score the candidate from 0 to 100 in the following areas. Do not add categories other than the ones provided:
        - **Communication Skills**: Clarity, articulation, structured responses.
        - **Technical Knowledge**: Understanding of key concepts for the role.
        - **Problem-Solving**: Ability to analyze problems and propose solutions.
        - **Cultural & Role Fit**: Alignment with company values and job role.
        - **Confidence & Clarity**: Confidence in responses, engagement, and clarity.
        ".

Definition feedbackSystem : string :=
  "You are a professional interviewer analyzing a mock interview. Your task is to evaluate the candidate based on structured categories".

(** [db.collection('feedback').add(data)]: resolves to the new document's
    reference. *)
Definition feedback_add (sv : Services)
  (interviewId userId : option string) (object : FeedbackObject)
  (createdAt : string) : Server string :=
  store_call sv FeedbackAdd
    (let! id := gets (fun w => autoId sv (feedback w)) in
     do! modify (set_feedback
           (fun docs => docs ++ [mkFeedback id interviewId userId object createdAt])) in
     ret id).

Definition createFeedback (sv : Services) (params : CreateFeedbackParams)
  : Server FeedbackResult :=
  let interviewId := params_interviewId params in
  let userId := params_userId params in
  let transcript := params_transcript params in
  try_catch
    (let formattedTranscript := formatTranscript transcript in
     let! object := await (generateObject sv
                      (mkRequest "gemini-2.0-flash-001"
                                 (feedbackPrompt formattedTranscript)
                                 feedbackSystem)) in
     let! id := feedback_add sv interviewId userId object (now sv) in
     ret (mkFeedbackResult true (Some id)))
    (fun e => ret (mkFeedbackResult false None)).

Record GetFeedbackByInterviewIdParams := mkGetFeedback {
  get_interviewId : string;
  get_userId : string
}.

Definition field_is (field : option string) (v : string) : bool :=
  match field with
  | Some f => String.eqb f v
  | None => false
  end.

Definition getFeedbackByInterviewId (sv : Services)
  (params : GetFeedbackByInterviewIdParams) : Server (option Feedback) :=
  let interviewId := get_interviewId params in
  let userId := get_userId params in
  let! docs := store_call sv FeedbackQuery
    (gets (fun w =>
       take 1
         (List.filter
            (fun f => field_is (feedback_interviewId f) interviewId
                      && field_is (feedback_userId f) userId)
            (feedback w)))) in
  match docs with
  | [] => ret None
  | feedbackDoc :: _ => ret (Some feedbackDoc)
  end.

(* ===================================================================== *)
(** * components/Agent.tsx: the call state machine *)
(* ===================================================================== *)

Inductive CallStatus := INACTIVE | CONNECTING | ACTIVE | FINISHED.

Definition CallStatus_eqb (a b : CallStatus) : bool :=
  match a, b with
  | INACTIVE, INACTIVE | CONNECTING, CONNECTING
  | ACTIVE, ACTIVE | FINISHED, FINISHED => true
  | _, _ => false
  end.

(** A message of the voice channel, with the fields [onMessage] reads (the
    declaration of [Message] is not among the sources).  [type] and
    [transcriptType] are the strings the handler compares; a message of
    another kind has no [transcriptType], and its [role] and [transcript]
    are not read. *)
Record Message := mkMessage {
  message_type : string;
  message_transcriptType : option string;
  message_role : Role;
  message_transcript : string
}.

(** The props the component destructures; [userId], [interviewId] and
    [questions] may be absent. *)
Record AgentProps := mkProps {
  userName : string;
  userId : option string;
  type : string;
  interviewId : option string;
  questions : option (list string)
}.

(** The three [useState] cells. *)
Record AgentState := mkState {
  isSpeaking : bool;
  callStatus : CallStatus;
  messages : list SavedMessage
}.

(** The initial values.  On mount the second effect finds [INACTIVE] and
    does nothing. *)
Definition mount : AgentState := mkState false INACTIVE [].

(** What [vapi.start] is given first: the workflow id of the environment,
    or the [interviewer] constant. *)
Inductive StartTarget := Workflow | Interviewer.

(** What a handler does, statement by statement. *)
Inductive Action :=
| setIsSpeaking (b : bool)
| setCallStatus (c : CallStatus)
| setMessages_append (newMessage : SavedMessage)
| console_log (line : string)
| vapi_start (target : StartTarget) (variableValues : list (string * option string))
| vapi_stop
| router_push (path : string)
| call_createFeedback (params : CreateFeedbackParams).

(** The events the component reacts to: the six channel events it
    subscribes to, and its two buttons. *)
Inductive Event :=
| ev_call_start
| ev_call_end
| ev_message (m : Message)
| ev_speech_start
| ev_speech_end
| ev_error (e : JsError)
| click_call
| click_end.

Definition is_final_transcript (m : Message) : bool :=
  String.eqb (message_type m) "transcript"
  && match message_transcriptType m with
     | Some t => String.eqb t "final"
     | None => false
     end.

Definition onCallStart : list Action := [setCallStatus ACTIVE].

Definition onCallEnd : list Action := [setCallStatus FINISHED].

Definition onMessage (m : Message) : list Action :=
  if is_final_transcript m then
    let newMessage := mkSaved (message_role m) (message_transcript m) in
    [setMessages_append newMessage]
  else [].

Definition onSpeechStart : list Action := [setIsSpeaking true].

Definition onSpeechEnd : list Action := [setIsSpeaking false].

Definition onError (e : JsError) : list Action := [console_log "Error"].

(** [questions.map(q => `- ${q}`).join('\n')], or [''] without questions. *)
Definition formatQuestions (questions : option (list string)) : string :=
  match questions with
  | Some qs => String.concat newline (map (fun question => "- " +:+ question) qs)
  | None => ""
  end.

Definition handleCall (props : AgentProps) : list Action :=
  setCallStatus CONNECTING ::
  (if String.eqb (type props) "generate" then
     [vapi_start Workflow
        [("username", Some (userName props)); ("userid", userId props)]]
   else
     let formattedQuestions := formatQuestions (questions props) in
     [vapi_start Interviewer [("questions", Some formattedQuestions)]]).

Definition handleDisconnect : list Action :=
  [setCallStatus FINISHED; vapi_stop].

(** [handleGenerateFeedback], up to the awaited call ... *)
Definition handleGenerateFeedback (props : AgentProps)
  (messages : list SavedMessage) : list Action :=
  [console_log "Generate feedback here.";
   call_createFeedback
     (mkCreateFeedback (interviewId props) (userId props) messages)].

(** [`${x}`] of a possibly absent string. *)
Definition template (x : option string) : string := default "undefined" x.

(** ... and after it: [if (success && id)]. *)
Definition handleGenerateFeedback_resume (props : AgentProps)
  (result : FeedbackResult) : list Action :=
  if feedback_success result
     && match feedbackId result with
        | Some id => negb (String.eqb id "")
        | None => false
        end
  then [router_push ("/interview/" +:+ template (interviewId props) +:+ "/feedback")]
  else [console_log "Error saving feedback"; router_push "/"].

(** The body of the second [useEffect]. *)
Definition feedbackEffect (props : AgentProps) (s : AgentState) : list Action :=
  match callStatus s with
  | FINISHED =>
      if String.eqb (type props) "generate" then [router_push "/"]
      else handleGenerateFeedback props (messages s)
  | _ => []
  end.

(** The handler an event runs.  The End button is the one rendered while
    [callStatus] is [ACTIVE] and the Call button otherwise; the machine
    accepts either click in every state, which covers what the page
    allows. *)
Definition handler (props : AgentProps) (ev : Event) : list Action :=
  match ev with
  | ev_call_start => onCallStart
  | ev_call_end => onCallEnd
  | ev_message m => onMessage m
  | ev_speech_start => onSpeechStart
  | ev_speech_end => onSpeechEnd
  | ev_error e => onError e
  | click_call => handleCall props
  | click_end => handleDisconnect
  end.

(** The state setters. *)
Definition update (s : AgentState) (a : Action) : AgentState :=
  match a with
  | setIsSpeaking b => mkState b (callStatus s) (messages s)
  | setCallStatus c => mkState (isSpeaking s) c (messages s)
  | setMessages_append newMessage =>
      mkState (isSpeaking s) (callStatus s) (messages s ++ [newMessage])
  | _ => s
  end.

Definition commit (s : AgentState) (acts : list Action) : AgentState :=
  fold_left update acts s.

Definition is_setMessages (a : Action) : bool :=
  match a with setMessages_append _ => true | _ => false end.

(** The dependency array [[messages, callStatus, type, userId]]: the props
    are fixed while the component is mounted; [callStatus] is compared by
    value and [messages] by identity, and every [setMessages] installs a
    new array. *)
Definition deps_changed (s : AgentState) (acts : list Action) (s' : AgentState)
  : bool :=
  negb (CallStatus_eqb (callStatus s) (callStatus s'))
  || existsb is_setMessages acts.

(** One event: the handler runs, the state is committed, and the effect
    runs again if one of its dependencies changed. *)
Definition dispatch (props : AgentProps) (s : AgentState) (ev : Event)
  : AgentState * list Action :=
  let acts := handler props ev in
  let s' := commit s acts in
  (s', acts ++ (if deps_changed s acts s' then feedbackEffect props s' else [])).

(** A run: the final state and everything done, in order. *)
Fixpoint run (props : AgentProps) (s : AgentState) (evs : list Event)
  : AgentState * list Action :=
  match evs with
  | [] => (s, [])
  | ev :: evs' =>
      let '(s1, done1) := dispatch props s ev in
      let '(s2, done2) := run props s1 evs' in
      (s2, done1 ++ done2)
  end.

(** The states a run goes through, the first one included. *)
Fixpoint visited (props : AgentProps) (s : AgentState) (evs : list Event)
  : list AgentState :=
  match evs with
  | [] => [s]
  | ev :: evs' => s :: visited props (fst (dispatch props s ev)) evs'
  end.

(** The invocations of the Feedback Pipeline among the things done. *)
Definition feedback_calls (done : list Action) : list CreateFeedbackParams :=
  omap (fun a => match a with call_createFeedback p => Some p | _ => None end)
       done.

(** The status writes among the things done. *)
Definition status_writes (done : list Action) : list CallStatus :=
  omap (fun a => match a with setCallStatus c => Some c | _ => None end) done.

(** Carrying out what the component did against the server: only
    [createFeedback] reaches the document store. *)
Definition perform (sv : Services) (w : World) (a : Action) : World :=
  match a with
  | call_createFeedback params => snd (createFeedback sv params w)
  | _ => w
  end.

Definition perform_all (sv : Services) (w : World) (done : list Action) : World :=
  fold_left (perform sv) done w.

(* ===================================================================== *)
(** * components/AuthForm.tsx: submitting the form *)
(* ===================================================================== *)

(** [type FormType = 'sign-in' | 'sign-up'] *)
Inductive FormType := sign_in | sign_up.

(** The validated values of the form. *)
Record FormData := mkFormData {
  form_name : string;
  form_email : string;
  form_password : string
}.

(** What the client SDK of the identity provider resolves to: the user's
    uid, and what [user.getIdToken()] answers. *)
Record UserCredential := mkCredential {
  credential_uid : string;
  getIdToken : completion string
}.

(** The client SDK of the identity provider. *)
Record ClientAuth := mkClientAuth {
  createUserWithEmailAndPassword : string -> string -> completion UserCredential;
  signInWithEmailAndPassword : string -> string -> completion UserCredential
}.

(** What the form shows and where it goes. *)
Inductive FormAction :=
| toast_error (text : string)
| toast_success (text : string)
| form_push (path : string)
| form_log.

(** [onSubmit].  Every path of the handler notifies and navigates last, so
    what it shows is returned as the value of the run.  [text error] is
    what [`${error}`] prints. *)
Definition onSubmit (client : ClientAuth) (sv : Services) (type : FormType)
  (data : FormData) : Server (list FormAction) :=
  try_catch
    (match type with
     | sign_up =>
         let name := form_name data in
         let email := form_email data in
         let password := form_password data in
         let! userCredential :=
           await (createUserWithEmailAndPassword client email password) in
         let! result :=
           signUp sv (mkSignUp (credential_uid userCredential) name email password) in
         if negb (success result) then ret [toast_error (message result)]
         else ret [toast_success "Account created successfully. Please sign in.";
                   form_push "/sign-in"]
     | sign_in =>
         let email := form_email data in
         let password := form_password data in
         let! userCredential :=
           await (signInWithEmailAndPassword client email password) in
         let! idToken := await (getIdToken userCredential) in
         if String.eqb idToken "" then
           ret [toast_error "Sign in Failed. Please try again."]
         else
           do! signIn sv (mkSignIn email idToken) in
           ret [toast_success "Signed in successfully."; form_push "/"]
     end)
    (fun error =>
       ret [form_log; toast_error ("There was an error: " +:+ text error)]).

(* ===================================================================== *)
(** * components/Agent.tsx: what is rendered *)
(* ===================================================================== *)

(** [messages[messages.length - 1]?.content] *)
Definition latestMessage (s : AgentState) : option string :=
  content <$> last (messages s).

(** [messages.length > 0 && ...]: the transcript panel. *)
Definition transcript_shown (s : AgentState) : bool :=
  negb (Nat.eqb (length (messages s)) 0).

Definition isCallInactiveOrFinished (s : AgentState) : bool :=
  CallStatus_eqb (callStatus s) INACTIVE || CallStatus_eqb (callStatus s) FINISHED.

(** The one button of the page: End while [ACTIVE], else the Call button
    with its label. *)
Inductive Button := CallButton (label : string) | EndButton.

Definition button (s : AgentState) : Button :=
  if negb (CallStatus_eqb (callStatus s) ACTIVE)
  then CallButton (if isCallInactiveOrFinished s then "Call" else ". . .")
  else EndButton.

(** The handler behind the rendered button. *)
Definition click (s : AgentState) : Event :=
  match button s with
  | CallButton _ => click_call
  | EndButton => click_end
  end.

(** A session at the page: channel events arrive as they come, and a
    click reaches the handler of the button rendered at that moment. *)
Inductive PageEvent := channel (ev : Event) | press.

Definition page_event (s : AgentState) (pe : PageEvent) : Event :=
  match pe with
  | channel ev => ev
  | press => click s
  end.

Fixpoint page_run (props : AgentProps) (s : AgentState) (pes : list PageEvent)
  : AgentState * list Action :=
  match pes with
  | [] => (s, [])
  | pe :: pes' =>
      let '(s1, done1) := dispatch props s (page_event s pe) in
      let '(s2, done2) := page_run props s1 pes' in
      (s2, done1 ++ done2)
  end.

(* ===================================================================== *)
(** * Fixtures: a small outside world to run the actions in *)
(* ===================================================================== *)

Definition ada : UserData :=
  <["name" := "Ada"]> (<["email" := "ada@example.com"]> ∅).

Definition network_error : JsError := mkError None "network unreachable".

(** Knows one account and answers the lookup of any other email with no
    record, which takes the branch on [!userRecord] (the Admin SDK rejects
    instead, see [admin_sdk]); mints ["cookie-" ++ token] for a non-empty
    token, and verifies only ["cookie-ada"] (subject ["u1"]) and
    ["cookie-bob"] (subject ["u2"]). *)
Definition demo : Services :=
  {| getUserByEmail email :=
       if String.eqb email "ada@example.com"
       then Resolved (Some (mkUserRecord "u1" "ada@example.com"))
       else Resolved None;
     createSessionCookie idToken expiresIn :=
       if String.eqb idToken ""
       then Rejected (mkError (Some "auth/invalid-id-token") "invalid token")
       else Resolved ("cookie-" +:+ idToken);
     verifySessionCookie cookie checkRevoked :=
       if String.eqb cookie "cookie-ada" then Resolved (mkClaims "u1")
       else if String.eqb cookie "cookie-bob" then Resolved (mkClaims "u2")
       else Rejected (mkError (Some "auth/argument-error") "cannot decode");
     generateObject request :=
       Resolved (mkFeedbackObject 70 [("Communication Skills", 70%Z)]
                   ["clear"] ["depth"] "solid");
     store_fault call := None;
     autoId docs := "fb" +:+ pretty (length docs);
     now := "2025-05-01T10:00:00.000Z";
     NODE_ENV := "production" |}.


Definition session_of (value : string) : gmap string Cookie :=
  <["session" := mkCookie value ONE_WEEK true true "/" "lax"]> ∅.

(** One profile, ["u1"]; no cookie. *)
Definition world0 : World :=
  mkWorld ∅ (<["u1" := ada]> ∅) [] [].

Definition with_session (value : string) (w : World) : World :=
  set_cookieStore (fun _ => session_of value) w.

(** Four interviews: three finalized ones of other users, and the newest
    of all, which is not finalized. *)
Definition january : Interview :=
  mkInterview "i1" "u2" "Backend" ["What is an index?"] true
              "2025-01-15T09:00:00.000Z".
Definition march : Interview :=
  mkInterview "i2" "u3" "Frontend" ["What is a closure?"] true
              "2025-03-15T09:00:00.000Z".
Definition april_draft : Interview :=
  mkInterview "i3" "u2" "Data" [] false "2025-04-15T09:00:00.000Z".
Definition february : Interview :=
  mkInterview "i4" "u2" "Mobile" ["What is a view?"] true
              "2025-02-15T09:00:00.000Z".

(** An interview call and a question-generation call. *)
Definition interview_props : AgentProps :=
  mkProps "Ada" (Some "u1") "interview" (Some "i1")
          (Some ["What is an index?"; "What is a closure?"]).

Definition generate_props : AgentProps :=
  mkProps "Ada" (Some "u1") "generate" None None.

Definition final (r : Role) (words : string) : Event :=
  ev_message (mkMessage "transcript" (Some "final") r words).

Definition partial (r : Role) (words : string) : Event :=
  ev_message (mkMessage "transcript" (Some "partial") r words).

(** A call in which the interviewer asks and the candidate answers. *)
Definition conversation : list Event :=
  [click_call; ev_call_start; ev_speech_start;
   partial Assistant "Tell me";
   final Assistant "Tell me about yourself"; ev_speech_end;
   ev_message (mkMessage "function-call" None System "");
   partial User "I build";
   final User "I build backend systems"].

Definition world_of_interviews : World :=
  mkWorld ∅ (<["u1" := ada]> ∅) [january; march; april_draft; february] [].

(* ===================================================================== *)
(** * More fixtures and vocabulary *)
(* ===================================================================== *)

(** The provider's client: refuses to create a second account for
    ada@example.com and creates ["u2"] otherwise; signs in whoever knows
    the password ["secret"], as ["u1"] with the id token ["ada"]. *)
Definition demo_client : ClientAuth :=
  {| createUserWithEmailAndPassword email password :=
       if String.eqb email "ada@example.com"
       then Rejected (mkError (Some "auth/email-already-in-use")
                        "FirebaseError: Firebase: Error (auth/email-already-in-use).")
       else Resolved (mkCredential "u2" (Resolved "bob"));
     signInWithEmailAndPassword email password :=
       if String.eqb password "secret"
       then Resolved (mkCredential "u1" (Resolved "ada"))
       else Rejected (mkError (Some "auth/invalid-credential")
                        "FirebaseError: Firebase: Error (auth/invalid-credential).") |}.

(** The demo world with a store that rejects every call. *)
Definition offline : Services :=
  {| getUserByEmail := getUserByEmail demo;
     createSessionCookie := createSessionCookie demo;
     verifySessionCookie := verifySessionCookie demo;
     generateObject := generateObject demo;
     store_fault call := Some network_error;
     autoId := autoId demo;
     now := now demo;
     NODE_ENV := NODE_ENV demo |}.

(** The status an event asks for, if any. *)
Definition status_of_event (ev : Event) : option CallStatus :=
  match ev with
  | click_call => Some CONNECTING
  | ev_call_start => Some ACTIVE
  | ev_call_end | click_end => Some FINISHED
  | _ => None
  end.

Definition is_click_call (ev : Event) : bool :=
  match ev with click_call => true | _ => false end.

Definition is_click_end (ev : Event) : bool :=
  match ev with click_end => true | _ => false end.

Definition is_call_start (ev : Event) : bool :=
  match ev with ev_call_start => true | _ => false end.

Definition is_vapi_start (a : Action) : bool :=
  match a with vapi_start _ _ => true | _ => false end.

Definition is_vapi_stop (a : Action) : bool :=
  match a with vapi_stop => true | _ => false end.

(** How many entries of a list pass a test. *)
Definition count {A} (test : A -> bool) (l : list A) : nat :=
  length (List.filter test l).

(** The document matches the pair the feedback is read by. *)
Definition feedback_of (interviewId userId : string) (f : Feedback) : bool :=
  field_is (feedback_interviewId f) interviewId
  && field_is (feedback_userId f) userId.

(** A page event is well formed when what comes from the channel is one
    of the six channel events: the clicks come from [press] alone. *)
Definition from_channel (pe : PageEvent) : bool :=
  match pe with
  | channel ev => negb (is_click_call ev || is_click_end ev)
  | press => true
  end.

(** The channel reports that the call has started. *)
Definition reports_start (pe : PageEvent) : bool :=
  match pe with
  | channel ev => is_call_start ev
  | press => false
  end.

(** A visit to the page of an interview. *)
Definition visit : list PageEvent :=
  [press; channel ev_call_start;
   channel (final Assistant "Tell me about yourself");
   channel (final User "I build backend systems");
   press].

(** One while the call is ACTIVE, zero otherwise. *)
Definition active (s : AgentState) : nat :=
  if CallStatus_eqb (callStatus s) ACTIVE then 1 else 0.

(** The outside world of [demo], with the lookup by email of the
    provider's Admin SDK: it resolves to the record of the account, and
    for an email that no account has it rejects with
    [auth/user-not-found]; it never resolves without a record. *)
Definition user_not_found : JsError :=
  mkError (Some "auth/user-not-found")
    "There is no user record corresponding to the provided identifier.".

Definition admin_sdk : Services :=
  {| getUserByEmail email :=
       if String.eqb email "ada@example.com"
       then Resolved (Some (mkUserRecord "u1" "ada@example.com"))
       else Rejected user_not_found;
     createSessionCookie := createSessionCookie demo;
     verifySessionCookie := verifySessionCookie demo;
     generateObject := generateObject demo;
     store_fault := store_fault demo;
     autoId := autoId demo;
     now := now demo;
     NODE_ENV := NODE_ENV demo |}.

(** A call in which the candidate's last words are transcribed after the
    End button has been clicked. *)
Definition late_words : list Event :=
  [click_call; ev_call_start; final User "Hello"; click_end; final User "Bye"].

(* ===================================================================== *)
(** * Vocabulary of the specification *)
(* ===================================================================== *)

(** An inbound message of kind [transcript] and sub-kind [final]. *)
Definition FinalTranscript (m : Message) : Prop :=
  message_type m = "transcript" /\ message_transcriptType m = Some "final".

#[global] Instance FinalTranscript_dec (m : Message) : Decision (FinalTranscript m).
Proof. unfold FinalTranscript. apply _. Defined.

(** The [{role, content}] entry of a transcript message. *)
Definition saved_of (m : Message) : SavedMessage :=
  mkSaved (message_role m) (message_transcript m).

(** The entries of the final transcripts among the events received, in the
    order of receipt. *)
Definition final_transcripts (evs : list Event) : list SavedMessage :=
  omap (fun ev =>
          match ev with
          | ev_message m =>
              if decide (FinalTranscript m) then Some (saved_of m) else None
          | _ => None
          end)
       evs.

(** [a] was created no earlier than [b]. *)
Definition at_least_as_new (a b : Interview) : Prop :=
  String.leb (interview_createdAt b) (interview_createdAt a) = true.



(* ===================================================================== *)
(** * Properties of the session adapter *)
(* ===================================================================== *)

Section SessionAdapter.
Variable sv : Services.

(** Reading a profile from a store that serves the call. *)
Lemma users_doc_get_served uid w :
  store_fault sv (UsersGet uid) = None ->
  users_doc_get sv uid w = (Resolved (mkSnapshot uid (users w !! uid)), w).
Proof. intros Hserved. unfold users_doc_get, store_call. now rewrite Hserved. Qed.

Lemma users_doc_get_state uid w :
  snd (users_doc_get sv uid w) = w.
Proof. unfold users_doc_get, store_call. now destruct (store_fault sv _). Qed.

(** Whatever the cookie store, the identity provider and the document
    store answer, [getCurrentUser] resolves and changes nothing. *)
Lemma getCurrentUser_total w :
  exists r, getCurrentUser sv w = (Resolved r, w).
Proof.
  unfold getCurrentUser, bind, gets.
  destruct (session_value w) as [cookie|]; [|now eexists].
  destruct (String.eqb cookie ""); [now eexists|].
  unfold try_catch, bind, await.
  destruct (verifySessionCookie sv cookie true) as [claims|e]; [|now eexists].
  pose proof (users_doc_get_state (claims_uid claims) w) as Hst.
  destruct (users_doc_get sv (claims_uid claims) w) as [[snap|e] w'];
    simpl in Hst; subst w'; [|now eexists].
  destruct (snap_exists snap); now eexists.
Qed.

Lemma getCurrentUser_no_cookie w :
  session_value w = None -> getCurrentUser sv w = (Resolved None, w).
Proof. intros H. unfold getCurrentUser, bind, gets. now rewrite H. Qed.

Lemma getCurrentUser_unverified w cookie e :
  session_value w = Some cookie ->
  verifySessionCookie sv cookie true = Rejected e ->
  getCurrentUser sv w = (Resolved None, w).
Proof.
  intros Hc Hv. unfold getCurrentUser, bind, gets. rewrite Hc.
  destruct (String.eqb cookie ""); [reflexivity|].
  unfold try_catch, bind, await. now rewrite Hv.
Qed.

Lemma getCurrentUser_no_profile w cookie claims :
  session_value w = Some cookie ->
  verifySessionCookie sv cookie true = Resolved claims ->
  users w !! claims_uid claims = None ->
  getCurrentUser sv w = (Resolved None, w).
Proof.
  intros Hc Hv Hu. unfold getCurrentUser, bind, gets. rewrite Hc.
  destruct (String.eqb cookie ""); [reflexivity|].
  unfold try_catch, bind, await. rewrite Hv.
  unfold users_doc_get, store_call.
  destruct (store_fault sv _); [reflexivity|].
  unfold gets. simpl. now rewrite Hu.
Qed.

Lemma getCurrentUser_profile w cookie claims data :
  session_value w = Some cookie ->
  cookie <> "" ->
  verifySessionCookie sv cookie true = Resolved claims ->
  store_fault sv (UsersGet (claims_uid claims)) = None ->
  users w !! claims_uid claims = Some data ->
  getCurrentUser sv w
  = (Resolved (Some (<["id" := claims_uid claims]> data)), w).
Proof.
  intros Hc Hne Hv Hs Hu. unfold getCurrentUser, bind, gets. rewrite Hc.
  apply String.eqb_neq in Hne. rewrite Hne.
  unfold try_catch, bind, await. rewrite Hv.
  rewrite (users_doc_get_served _ _ Hs). simpl. now rewrite Hu.
Qed.

Lemma isAuthenticated_unfold w r :
  getCurrentUser sv w = (Resolved r, w) ->
  isAuthenticated sv w = (Resolved (truthy r), w).
Proof. intros H. unfold isAuthenticated, bind. now rewrite H. Qed.

End SessionAdapter.

(** C4.  [getCurrentUser] never throws: it always resolves, and leaves
    the cookie store and the document store as they were.  It resolves to
    null when the session cookie is absent, when the credential fails
    verification, and when the subject has no profile record; when the
    cookie is present, verifies, and the profile is read, it resolves to
    the stored profile with the document id added under [id]. *)
Theorem getCurrentUser_null_or_profile (sv : Services) (w : World) :
  (exists r, getCurrentUser sv w = (Resolved r, w))
  /\ (session_value w = None -> getCurrentUser sv w = (Resolved None, w))
  /\ (forall cookie e,
        session_value w = Some cookie ->
        verifySessionCookie sv cookie true = Rejected e ->
        getCurrentUser sv w = (Resolved None, w))
  /\ (forall cookie claims,
        session_value w = Some cookie ->
        verifySessionCookie sv cookie true = Resolved claims ->
        users w !! claims_uid claims = None ->
        getCurrentUser sv w = (Resolved None, w))
  /\ (forall cookie claims data,
        session_value w = Some cookie ->
        cookie <> "" ->
        verifySessionCookie sv cookie true = Resolved claims ->
        store_fault sv (UsersGet (claims_uid claims)) = None ->
        users w !! claims_uid claims = Some data ->
        getCurrentUser sv w
        = (Resolved (Some (<["id" := claims_uid claims]> data)), w)).
Proof.
  split; [apply getCurrentUser_total|].
  split; [apply getCurrentUser_no_cookie|].
  split; [apply getCurrentUser_unverified|].
  split; [apply getCurrentUser_no_profile|apply getCurrentUser_profile].
Qed.

(** The four cases of C4 in the demo world: no cookie; a cookie the
    provider cannot decode; a cookie of subject ["u2"], who has no
    profile; the cookie of ["u1"]. *)
Lemma getCurrentUser_null_or_profile_witness :
  getCurrentUser demo world0 = (Resolved None, world0)
  /\ getCurrentUser demo (with_session "forged" world0)
     = (Resolved None, with_session "forged" world0)
  /\ getCurrentUser demo (with_session "cookie-bob" world0)
     = (Resolved None, with_session "cookie-bob" world0)
  /\ getCurrentUser demo (with_session "cookie-ada" world0)
     = (Resolved (Some (<["id" := "u1"]> ada)), with_session "cookie-ada" world0).
Proof.
  split; [|split; [|split]].
  - apply (getCurrentUser_null_or_profile demo world0). reflexivity.
  - apply (getCurrentUser_null_or_profile demo (with_session "forged" world0))
      with (cookie := "forged")
           (e := mkError (Some "auth/argument-error") "cannot decode");
      reflexivity.
  - apply (getCurrentUser_null_or_profile demo (with_session "cookie-bob" world0))
      with (cookie := "cookie-bob") (claims := mkClaims "u2");
      reflexivity.
  - apply (getCurrentUser_null_or_profile demo (with_session "cookie-ada" world0))
      with (cookie := "cookie-ada") (claims := mkClaims "u1") (data := ada);
      [reflexivity | discriminate | reflexivity | reflexivity | reflexivity].
Defined.

(** C10.  [isAuthenticated] never throws: it resolves to a boolean, which
    is true exactly when [getCurrentUser] resolves to a user; it is false
    when the session cookie is absent, when the credential fails
    verification, and when the subject has no profile record. *)
Theorem isAuthenticated_iff_current_user (sv : Services) (w : World) :
  (exists b, isAuthenticated sv w = (Resolved b, w)
             /\ (b = true <-> exists u, getCurrentUser sv w = (Resolved (Some u), w)))
  /\ (session_value w = None -> isAuthenticated sv w = (Resolved false, w))
  /\ (forall cookie e,
        session_value w = Some cookie ->
        verifySessionCookie sv cookie true = Rejected e ->
        isAuthenticated sv w = (Resolved false, w))
  /\ (forall cookie claims,
        session_value w = Some cookie ->
        verifySessionCookie sv cookie true = Resolved claims ->
        users w !! claims_uid claims = None ->
        isAuthenticated sv w = (Resolved false, w)).
Proof.
  split.
  - destruct (getCurrentUser_total sv w) as [r Hr].
    exists (truthy r). split; [now apply isAuthenticated_unfold|].
    rewrite Hr. destruct r as [u|]; simpl; split.
    + intros _. now exists u.
    + reflexivity.
    + discriminate.
    + intros [u Hu]. discriminate.
  - split; [|split].
    + intros H. apply (isAuthenticated_unfold sv w None).
      now apply getCurrentUser_no_cookie.
    + intros cookie e Hc Hv. apply (isAuthenticated_unfold sv w None).
      now apply getCurrentUser_unverified with cookie e.
    + intros cookie claims Hc Hv Hu. apply (isAuthenticated_unfold sv w None).
      now apply getCurrentUser_no_profile with cookie claims.
Qed.

(** C10 in the demo world: false without a cookie, with a forged one and
    for a subject without profile. *)
Lemma isAuthenticated_iff_current_user_witness :
  isAuthenticated demo world0 = (Resolved false, world0)
  /\ isAuthenticated demo (with_session "forged" world0)
     = (Resolved false, with_session "forged" world0)
  /\ isAuthenticated demo (with_session "cookie-bob" world0)
     = (Resolved false, with_session "cookie-bob" world0).
Proof.
  split; [|split].
  - apply (isAuthenticated_iff_current_user demo world0). reflexivity.
  - apply (isAuthenticated_iff_current_user demo (with_session "forged" world0))
      with (cookie := "forged")
           (e := mkError (Some "auth/argument-error") "cannot decode");
      reflexivity.
  - apply (isAuthenticated_iff_current_user demo (with_session "cookie-bob" world0))
      with (cookie := "cookie-bob") (claims := mkClaims "u2");
      reflexivity.
Defined.

(* ===================================================================== *)
(** * Properties of sign-up and sign-in *)
(* ===================================================================== *)

Section IdentityAdapter.
Variable sv : Services.

(** The uid is taken and the store serves the lookup. *)
Lemma signUp_taken params w data :
  store_fault sv (UsersGet (signUp_uid params)) = None ->
  users w !! signUp_uid params = Some data ->
  signUp sv params w
  = (Resolved (mkAuthResult false "User already exists. Please sign in instead."), w).
Proof.
  intros Hs Hu. unfold signUp, try_catch, bind.
  rewrite (users_doc_get_served sv _ _ Hs).
  unfold snap_exists. simpl. now rewrite Hu.
Qed.

(** The lookup rejects: the handler picks the message by [e.code]. *)
Lemma signUp_lookup_rejected params w e :
  store_fault sv (UsersGet (signUp_uid params)) = Some e ->
  signUp sv params w
  = (Resolved (mkAuthResult false
       (if code_is e "auth/email-already-exists"
        then "This email is already in use."
        else "Failed to create an account")), w).
Proof.
  intros Hs. unfold signUp, try_catch, bind, users_doc_get, store_call.
  rewrite Hs. unfold throw. now destruct (code_is e _).
Qed.

(** A sign-up that does not succeed has written nothing. *)
Lemma signUp_failure_writes_nothing params w :
  success_of (fst (signUp sv params w)) = false ->
  snd (signUp sv params w) = w.
Proof.
  unfold signUp, try_catch, bind, users_doc_get, users_doc_set, store_call.
  destruct (store_fault sv (UsersGet _)) as [e|].
  { unfold throw. now destruct (code_is e _). }
  unfold gets. simpl.
  destruct (snap_exists _); [reflexivity|].
  destruct (store_fault sv (UsersSet _)) as [e|].
  { unfold throw. now destruct (code_is e _). }
  simpl. discriminate.
Qed.

(** The account exists and the session cookie is minted: [signIn] sets
    the cookie and falls off its end. *)
Lemma signIn_established params w record cookie :
  getUserByEmail sv (signIn_email params) = Resolved (Some record) ->
  createSessionCookie sv (signIn_idToken params) (ONE_WEEK * 1000)
  = Resolved cookie ->
  signIn sv params w
  = (Resolved None,
     set_cookieStore
       (insert "session"
          (mkCookie cookie ONE_WEEK true
             (String.eqb (NODE_ENV sv) "production") "/" "lax")) w).
Proof.
  intros Hu Hc. unfold signIn, try_catch, bind, await. rewrite Hu.
  unfold setSessionCookie, bind, await. now rewrite Hc.
Qed.

(** The provider rejects the lookup: the generic message. *)
Lemma signIn_lookup_rejected params w e :
  getUserByEmail sv (signIn_email params) = Rejected e ->
  signIn sv params w
  = (Resolved (Some (mkAuthResult false "Failed to log into an account.")), w).
Proof. intros Hu. unfold signIn, try_catch, bind, await. now rewrite Hu. Qed.

(** [signIn] never rejects. *)
Lemma signIn_total params w :
  exists r w', signIn sv params w = (Resolved r, w').
Proof.
  unfold signIn, try_catch, bind, await.
  destruct (getUserByEmail sv _) as [[record|]|e]; [|now do 2 eexists..].
  unfold setSessionCookie, bind, await.
  destruct (createSessionCookie sv _ _); now do 2 eexists.
Qed.

(** [createFeedback] never rejects, and its result carries a
    [feedbackId] exactly when [success] is true. *)
Lemma createFeedback_shape params w :
  exists r w',
    createFeedback sv params w = (Resolved r, w')
    /\ (feedback_success r = true <-> is_Some (feedbackId r)).
Proof.
  unfold createFeedback, try_catch, bind, await.
  destruct (generateObject sv _) as [object|e].
  - unfold feedback_add, store_call.
    destruct (store_fault sv FeedbackAdd) as [e|]; simpl.
    + do 2 eexists. split; [reflexivity|]. simpl. split; [discriminate|].
      intros [x Hx]. discriminate.
    + do 2 eexists. split; [reflexivity|]. simpl. split; [now eexists|easy].
  - do 2 eexists. split; [reflexivity|]. simpl. split; [discriminate|].
    intros [x Hx]. discriminate.
Qed.

End IdentityAdapter.




(** C6.  The account exists and the session is established, and
    [signIn] resolves to [undefined], not to an object with
    [success = true]: the success path has no [return]. *)
Theorem signIn_success_resolves_undefined :
  fst (signIn demo (mkSignIn "ada@example.com" "token") world0) = Resolved None
  /\ session_value (snd (signIn demo (mkSignIn "ada@example.com" "token") world0))
     = Some "cookie-token".
Proof. split; reflexivity. Qed.

(** C7.  No account has nobody@example.com.  The lookup by email of the
    provider rejects with [auth/user-not-found], the handler of [signIn]
    catches the rejection, and the answer is the generic failure of a
    sign-in: the message for a user that does not exist, which the branch
    on [!userRecord] holds ready, is not the one given. *)
Theorem signIn_unknown_email_generic_failure :
  getUserByEmail admin_sdk "nobody@example.com" = Rejected user_not_found
  /\ signIn admin_sdk (mkSignIn "nobody@example.com" "token") world0
     = (Resolved (Some (mkAuthResult false "Failed to log into an account.")),
        world0)
  /\ "Failed to log into an account."
     <> "User does not exist. Create an account instead.".
Proof.
  split; [reflexivity|]. split; [|discriminate].
  now apply signIn_lookup_rejected with user_not_found.
Qed.

(* ===================================================================== *)
(** * Properties of the interview repository *)
(* ===================================================================== *)

(** ** Timestamps are totally ordered *)

Lemma string_compare_trans (a b c : string) :
  String.compare a b <> Gt -> String.compare b c <> Gt ->
  String.compare a c <> Gt.
Proof.
  revert b c. induction a as [|x a IH]; intros [|y b] [|z c]; simpl;
    try congruence.
  unfold Ascii.compare.
  destruct (N.compare_spec (N_of_ascii x) (N_of_ascii y)) as [Hxy|Hxy|Hxy];
    destruct (N.compare_spec (N_of_ascii y) (N_of_ascii z)) as [Hyz|Hyz|Hyz];
    destruct (N.compare_spec (N_of_ascii x) (N_of_ascii z)) as [Hxz|Hxz|Hxz];
    try congruence; try lia.
  apply IH.
Qed.

Lemma string_leb_trans (a b c : string) :
  String.leb a b = true -> String.leb b c = true -> String.leb a c = true.
Proof.
  unfold String.leb. intros Hab Hbc.
  pose proof (string_compare_trans a b c) as Ht.
  destruct (String.compare a b), (String.compare b c), (String.compare a c);
    try reflexivity; try congruence; exfalso; apply Ht; congruence.
Qed.

#[local] Instance at_least_as_new_trans : Transitive at_least_as_new.
Proof. intros a b c Hab Hbc. unfold at_least_as_new in *. now apply string_leb_trans with (interview_createdAt b). Qed.

(** ** The sort *)

Lemma insert_desc_perm x l : insert_desc x l ≡ₚ x :: l.
Proof.
  induction l as [|y l IH]; simpl; [reflexivity|].
  destruct (String.leb _ _); [reflexivity|].
  rewrite IH. apply perm_swap.
Qed.

Lemma orderBy_createdAt_desc_perm l : orderBy_createdAt_desc l ≡ₚ l.
Proof.
  induction l as [|x l IH]; simpl; [reflexivity|].
  now rewrite insert_desc_perm, IH.
Qed.

Lemma insert_desc_sorted x l :
  StronglySorted at_least_as_new l ->
  StronglySorted at_least_as_new (insert_desc x l).
Proof.
  induction 1 as [|y l Hl IH Hy]; simpl.
  - repeat constructor.
  - destruct (String.leb (interview_createdAt y) (interview_createdAt x)) eqn:Hle.
    + constructor; [now constructor|].
      constructor; [exact Hle|].
      eapply Forall_impl; [exact Hy|].
      intros z Hz. exact (at_least_as_new_trans x y z Hle Hz).
    + constructor; [exact IH|].
      rewrite insert_desc_perm. constructor; [|exact Hy].
      unfold at_least_as_new.
      destruct (String.leb_total (interview_createdAt x) (interview_createdAt y))
        as [H|H]; [exact H|congruence].
Qed.

Lemma orderBy_createdAt_desc_sorted l :
  StronglySorted at_least_as_new (orderBy_createdAt_desc l).
Proof.
  induction l as [|x l IH]; simpl; [constructor|now apply insert_desc_sorted].
Qed.

(** ** The query of [getLatestInterviews] *)

Lemma discoverable_spec userId i :
  discoverable userId i = true
  <-> interview_finalized i = true /\ interview_userId i <> userId.
Proof.
  unfold discoverable. rewrite andb_true_iff, negb_true_iff, String.eqb_neq.
  reflexivity.
Qed.

Lemma elem_of_discoverable userId l i :
  i ∈ orderBy_createdAt_desc (List.filter (discoverable userId) l)
  <-> i ∈ l /\ interview_finalized i = true /\ interview_userId i <> userId.
Proof.
  rewrite orderBy_createdAt_desc_perm, list_elem_of_In, filter_In,
    <- list_elem_of_In, discoverable_spec.
  reflexivity.
Qed.

(** C8.  When the store serves the query, [getLatestInterviews] resolves
    to a list [r] such that: every interview of [r] is in the store, is
    finalized and belongs to another user than the caller; [r] is ordered
    newest first by [createdAt]; its length is the limit of the caller
    (20 when none is given), or the number of discoverable interviews if
    that is smaller; and a discoverable interview left out of [r] is no
    newer than any interview of [r]. *)
Theorem getLatestInterviews_newest_discoverable
  (sv : Services) (params : GetLatestInterviewsParams) (w : World) :
  store_fault sv (InterviewsLatest (latest_userId params)) = None ->
  exists r,
    getLatestInterviews sv params w = (Resolved r, w)
    /\ Forall (fun i => i ∈ interviews w
                        /\ interview_finalized i = true
                        /\ interview_userId i <> latest_userId params) r
    /\ StronglySorted at_least_as_new r
    /\ length r
       = Nat.min (match latest_limit params with Some n => n | None => 20 end)
           (length (List.filter (discoverable (latest_userId params))
                      (interviews w)))
    /\ (forall i j,
          i ∈ interviews w -> interview_finalized i = true ->
          interview_userId i <> latest_userId params ->
          i ∉ r -> j ∈ r -> at_least_as_new j i).
Proof.
  intros Hserved. unfold getLatestInterviews, store_call. rewrite Hserved.
  unfold gets. eexists. split; [reflexivity|].
  set (userId := latest_userId params).
  set (limit := default 20 (latest_limit params)).
  set (sorted := orderBy_createdAt_desc
                   (List.filter (discoverable userId) (interviews w))).
  assert (Hsorted : StronglySorted at_least_as_new sorted)
    by apply orderBy_createdAt_desc_sorted.
  rewrite <- (take_drop limit sorted) in Hsorted.
  split; [|split; [|split]].
  - apply Forall_take, Forall_forall. intros i Hi.
    now apply elem_of_discoverable in Hi.
  - now apply StronglySorted_app_1_l in Hsorted.
  - rewrite length_take. subst sorted.
    rewrite (Permutation_length (orderBy_createdAt_desc_perm _)).
    subst limit. now destruct (latest_limit params).
  - intros i j Hi Hfin Hother Hout Hj.
    assert (Hin : i ∈ sorted) by now apply elem_of_discoverable.
    rewrite <- (take_drop limit sorted), elem_of_app in Hin.
    destruct Hin as [Hin|Hin]; [contradiction|].
    now apply (StronglySorted_app_1_elem_of _ _ _ j i) in Hsorted.
Qed.

(** The scenario of C8: caller ["u1"], limit 2, three finalized interviews
    of other users and one that is not finalized.  The answer has two
    entries, both finalized, newest first. *)
Lemma getLatestInterviews_newest_discoverable_witness :
  exists r,
    getLatestInterviews demo (mkLatest "u1" (Some 2)) world_of_interviews
    = (Resolved r, world_of_interviews)
    /\ Forall (fun i => i ∈ interviews world_of_interviews
                        /\ interview_finalized i = true
                        /\ interview_userId i <> "u1") r
    /\ StronglySorted at_least_as_new r
    /\ length r = 2.
Proof.
  destruct (getLatestInterviews_newest_discoverable demo
              (mkLatest "u1" (Some 2)) world_of_interviews eq_refl)
    as (r & Hrun & Hall & Hsorted & Hlen & _).
  exists r. repeat split; assumption.
Defined.

(** The same scenario, evaluated: March, then February. *)
Example getLatestInterviews_scenario :
  getLatestInterviews demo (mkLatest "u1" (Some 2)) world_of_interviews
  = (Resolved [march; february], world_of_interviews).
Proof. reflexivity. Qed.

(** Without a limit the cap is 20. *)
Example getLatestInterviews_default_limit :
  fst (getLatestInterviews demo (mkLatest "u1" None)
         (mkWorld ∅ ∅ (replicate 25 january) []))
  = Resolved (replicate 20 january).
Proof. reflexivity. Qed.

(* ===================================================================== *)
(** * Properties of the call state machine *)
(* ===================================================================== *)

Section CallStateMachine.
Variable props : AgentProps.

(** The handler's test is the specification's. *)
Lemma is_final_transcript_spec m :
  is_final_transcript m = true <-> FinalTranscript m.
Proof.
  unfold is_final_transcript, FinalTranscript.
  destruct m as [kind sub r words]; simpl.
  rewrite andb_true_iff, String.eqb_eq.
  destruct sub as [t|]; [rewrite String.eqb_eq|];
    split; intros [H1 H2]; split; congruence.
Qed.

(** ** One event *)

Lemma final_transcripts_message m :
  final_transcripts [ev_message m]
  = if is_final_transcript m then [saved_of m] else [].
Proof.
  unfold final_transcripts. cbn [omap list_omap].
  destruct (decide (FinalTranscript m)) as [F|F];
    destruct (is_final_transcript m) eqn:E; try reflexivity.
  - apply is_final_transcript_spec in F. congruence.
  - exfalso. apply F. now apply is_final_transcript_spec.
Qed.

Lemma dispatch_messages s ev :
  messages (fst (dispatch props s ev)) = messages s ++ final_transcripts [ev].
Proof.
  destruct ev; try (simpl; now rewrite app_nil_r).
  - rewrite final_transcripts_message.
    unfold dispatch, handler, onMessage. cbn [fst].
    destruct (is_final_transcript m); simpl; now rewrite ?app_nil_r.
  - simpl. unfold handleCall. rewrite app_nil_r.
    now destruct (String.eqb (type props) "generate").
Qed.

(** [FINISHED] is entered by the channel's [call-end] and by the End
    button, and by nothing else. *)
Lemma enters_FINISHED s ev :
  callStatus s <> FINISHED ->
  callStatus (fst (dispatch props s ev)) = FINISHED ->
  ev = ev_call_end \/ ev = click_end.
Proof.
  intros Hs. destruct ev; simpl; auto; try congruence.
  - unfold onMessage. destruct (is_final_transcript m); simpl; congruence.
  - unfold handleCall.
    destruct (String.eqb (type props) "generate"); simpl; congruence.
Qed.

Lemma CallStatus_eqb_FINISHED c :
  c <> FINISHED -> CallStatus_eqb c FINISHED = false.
Proof. now destruct c. Qed.

(** What is done on entering [FINISHED]: the handler, then the effect on
    the transcript accumulated so far. *)
Lemma dispatch_entering_FINISHED s ev :
  callStatus s <> FINISHED ->
  callStatus (fst (dispatch props s ev)) = FINISHED ->
  snd (dispatch props s ev)
  = handler props ev
    ++ (if String.eqb (type props) "generate" then [router_push "/"]
        else handleGenerateFeedback props (messages s)).
Proof.
  intros Hs Hf. destruct (enters_FINISHED s ev Hs Hf) as [-> | ->];
    unfold dispatch, deps_changed; simpl;
    now rewrite (CallStatus_eqb_FINISHED _ Hs).
Qed.

(** No handler invokes the Feedback Pipeline; only the effect does. *)
Lemma handler_feedback_calls ev : feedback_calls (handler props ev) = [].
Proof.
  destruct ev; try reflexivity.
  - simpl. unfold onMessage. now destruct (is_final_transcript m).
  - simpl. unfold handleCall. now destruct (String.eqb (type props) "generate").
Qed.

Lemma feedback_calls_app d1 d2 :
  feedback_calls (d1 ++ d2) = feedback_calls d1 ++ feedback_calls d2.
Proof. apply omap_app. Qed.

(** Outside [FINISHED] the effect does nothing. *)
Lemma dispatch_quiet s ev :
  callStatus (fst (dispatch props s ev)) <> FINISHED ->
  feedback_calls (snd (dispatch props s ev)) = [].
Proof.
  unfold dispatch. simpl. intros Hf.
  rewrite feedback_calls_app, handler_feedback_calls. simpl.
  destruct (deps_changed _ _ _); [|reflexivity].
  unfold feedbackEffect. now destruct (callStatus (commit s (handler props ev))).
Qed.

(** In "generate" mode the effect never invokes the pipeline. *)
Lemma dispatch_generate s ev :
  type props = "generate" ->
  feedback_calls (snd (dispatch props s ev)) = [].
Proof.
  intros Hg. unfold dispatch. simpl.
  rewrite feedback_calls_app, handler_feedback_calls. simpl.
  destruct (deps_changed _ _ _); [|reflexivity].
  unfold feedbackEffect. rewrite Hg. simpl.
  now destruct (callStatus (commit s (handler props ev))).
Qed.

(** ** Runs *)

Lemma run_cons s ev evs :
  run props s (ev :: evs)
  = (fst (run props (fst (dispatch props s ev)) evs),
     snd (dispatch props s ev) ++ snd (run props (fst (dispatch props s ev)) evs)).
Proof.
  cbn [run]. destruct (dispatch props s ev) as [s1 d1]. cbn [fst snd].
  now destruct (run props s1 evs).
Qed.

Lemma run_snoc s evs ev :
  run props s (evs ++ [ev])
  = (fst (dispatch props (fst (run props s evs)) ev),
     snd (run props s evs) ++ snd (dispatch props (fst (run props s evs)) ev)).
Proof.
  revert s. induction evs as [|e evs IH]; intros s.
  - rewrite app_nil_l, run_cons. simpl. now rewrite app_nil_r.
  - rewrite <- app_comm_cons, !run_cons, IH. simpl. now rewrite app_assoc.
Qed.

Lemma final_transcripts_cons ev evs :
  final_transcripts (ev :: evs) = final_transcripts [ev] ++ final_transcripts evs.
Proof. apply (omap_app _ [ev] evs). Qed.

Lemma run_messages s evs :
  messages (fst (run props s evs)) = messages s ++ final_transcripts evs.
Proof.
  revert s. induction evs as [|ev evs IH]; intros s.
  - simpl. now rewrite app_nil_r.
  - rewrite run_cons. cbn [fst]. rewrite IH, dispatch_messages.
    now rewrite (final_transcripts_cons ev evs), app_assoc.
Qed.

(** A run that stays out of [FINISHED] has not invoked the pipeline. *)
Lemma run_quiet s evs :
  Forall (fun t => callStatus t <> FINISHED) (visited props s evs) ->
  feedback_calls (snd (run props s evs)) = [].
Proof.
  revert s. induction evs as [|ev evs IH]; intros s Hv; [reflexivity|].
  rewrite run_cons. cbn [snd]. cbn [visited] in Hv.
  apply Forall_cons in Hv as [_ Hv].
  rewrite feedback_calls_app, (IH _ Hv), app_nil_r.
  apply dispatch_quiet.
  destruct evs; cbn [visited] in Hv; now apply Forall_cons in Hv as [Hv _].
Qed.

Lemma run_generate s evs :
  type props = "generate" ->
  feedback_calls (snd (run props s evs)) = [].
Proof.
  intros Hg. revert s. induction evs as [|ev evs IH]; intros s; [reflexivity|].
  rewrite run_cons. cbn [snd].
  now rewrite feedback_calls_app, dispatch_generate, IH.
Qed.

(** What was done without invoking the pipeline leaves the server's
    world alone. *)
Lemma perform_all_quiet sv w done :
  feedback_calls done = [] -> perform_all sv w done = w.
Proof.
  unfold perform_all. revert w.
  induction done as [|a done IH]; intros w Hq; [reflexivity|].
  destruct a; simpl in *; try (now apply IH). discriminate.
Qed.

End CallStateMachine.

(** C2.  One event: a message of kind [transcript] and sub-kind [final]
    appends its [{role, content}] entry to the transcript, and every other
    event (a partial transcript, a message of another kind, any other
    channel event, a click) leaves the transcript as it was.  A sequence
    of events: the transcript grows by the entries of exactly the final
    transcripts, in the order of receipt; from the mounted component it is
    that list. *)
Theorem transcript_collects_final_transcripts
  (props : AgentProps) (s : AgentState) (ev : Event) (evs : list Event) :
  messages (fst (dispatch props s ev))
  = match ev with
    | ev_message m =>
        if decide (FinalTranscript m)
        then messages s ++ [mkSaved (message_role m) (message_transcript m)]
        else messages s
    | _ => messages s
    end
  /\ messages (fst (run props s evs)) = messages s ++ final_transcripts evs
  /\ messages (fst (run props mount evs)) = final_transcripts evs.
Proof.
  split; [|split].
  - rewrite dispatch_messages.
    destruct ev; try apply app_nil_r.
    unfold final_transcripts. cbn [omap list_omap].
    destruct (decide (FinalTranscript m)); [reflexivity|apply app_nil_r].
  - apply run_messages.
  - apply (run_messages props mount evs).
Qed.

(** X29.  At the step that enters [FINISHED]: in a call whose type is not
    "generate", the event that takes the status from another value to
    [FINISHED] invokes [createFeedback] exactly once at that step, with
    the [interviewId] and [userId] of the component and with the final
    transcripts received so far (an empty transcript included); and when
    [FINISHED] had not been visited before, this is the only invocation
    up to and including that step.  What later events add is not bounded
    by this. *)
Theorem feedback_invoked_once_on_FINISHED
  (props : AgentProps) (evs : list Event) (ev : Event) :
  type props <> "generate" ->
  callStatus (fst (run props mount evs)) <> FINISHED ->
  callStatus (fst (run props mount (evs ++ [ev]))) = FINISHED ->
  feedback_calls (snd (dispatch props (fst (run props mount evs)) ev))
  = [mkCreateFeedback (interviewId props) (userId props)
       (final_transcripts (evs ++ [ev]))]
  /\ (Forall (fun t => callStatus t <> FINISHED) (visited props mount evs) ->
      feedback_calls (snd (run props mount (evs ++ [ev])))
      = [mkCreateFeedback (interviewId props) (userId props)
           (final_transcripts (evs ++ [ev]))]).
Proof.
  intros Htype Hbefore Hafter. rewrite run_snoc in Hafter. cbn [fst] in Hafter.
  assert (Hstep :
    feedback_calls (snd (dispatch props (fst (run props mount evs)) ev))
    = [mkCreateFeedback (interviewId props) (userId props)
         (final_transcripts (evs ++ [ev]))]).
  { rewrite (dispatch_entering_FINISHED props _ _ Hbefore Hafter).
    rewrite feedback_calls_app, handler_feedback_calls.
    apply String.eqb_neq in Htype. rewrite Htype. simpl.
    rewrite (run_messages props mount evs). simpl.
    unfold final_transcripts. rewrite omap_app. fold (final_transcripts evs).
    destruct (enters_FINISHED props _ _ Hbefore Hafter) as [-> | ->];
      simpl; now rewrite app_nil_r. }
  split; [exact Hstep|].
  intros Hquiet. rewrite run_snoc. cbn [snd].
  now rewrite feedback_calls_app, (run_quiet props _ _ Hquiet), Hstep.
Qed.

(** X29 run: an interview call is started, two final transcripts and two
    partial ones are received, and the channel ends the call. *)
Lemma feedback_invoked_once_on_FINISHED_witness :
  feedback_calls (snd (run interview_props mount (conversation ++ [ev_call_end])))
  = [mkCreateFeedback (Some "i1") (Some "u1")
       [mkSaved Assistant "Tell me about yourself";
        mkSaved User "I build backend systems"]].
Proof.
  refine (proj2 (feedback_invoked_once_on_FINISHED interview_props conversation
                   ev_call_end _ _ _) _).
  - discriminate.
  - vm_compute. discriminate.
  - reflexivity.
  - vm_compute. repeat constructor; discriminate.
Defined.

(** C1.  One call, ended by the End button, whose last final transcript
    arrives after the click: the call is in [FINISHED] with a non-empty
    transcript, and [createFeedback] has been invoked twice, first on the
    transcript at the click and again on the longer one, so that two
    feedback records are stored.  The effect is meant to run when the
    call ends, but [messages] is among its dependencies, and every final
    transcript received while the status is [FINISHED] runs it again. *)
Theorem final_transcript_after_FINISHED :
  callStatus (fst (run interview_props mount late_words)) = FINISHED
  /\ messages (fst (run interview_props mount late_words))
     = [mkSaved User "Hello"; mkSaved User "Bye"]
  /\ feedback_calls (snd (run interview_props mount late_words))
     = [mkCreateFeedback (Some "i1") (Some "u1") [mkSaved User "Hello"];
        mkCreateFeedback (Some "i1") (Some "u1")
          [mkSaved User "Hello"; mkSaved User "Bye"]]
  /\ map feedback_id
       (feedback
          (perform_all demo world0 (snd (run interview_props mount late_words))))
     = ["fb0"; "fb1"].
Proof. repeat split; reflexivity. Qed.

(** C3.  In a call whose type is "generate", no run of the component
    invokes [createFeedback], so the [feedback] collection is what it was
    before the run, whatever the transcript; and the event that takes the
    state machine into [FINISHED] is followed by the navigation to the
    landing view and by nothing else. *)
Theorem generate_never_creates_feedback
  (props : AgentProps) (s : AgentState) (evs : list Event) (ev : Event)
  (sv : Services) (w : World) :
  type props = "generate" ->
  feedback_calls (snd (run props s evs)) = []
  /\ feedback (perform_all sv w (snd (run props s evs))) = feedback w
  /\ (callStatus s <> FINISHED ->
      callStatus (fst (dispatch props s ev)) = FINISHED ->
      snd (dispatch props s ev) = handler props ev ++ [router_push "/"]).
Proof.
  intros Hg. split; [now apply run_generate|]. split.
  - now rewrite perform_all_quiet by now apply run_generate.
  - intros Hs Hf. rewrite (dispatch_entering_FINISHED props s ev Hs Hf).
    now rewrite Hg.
Qed.

(** C3 run: the same conversation in a "generate" call, ended by the
    channel. *)
Lemma generate_never_creates_feedback_witness :
  feedback_calls (snd (run generate_props mount (conversation ++ [ev_call_end])))
  = []
  /\ feedback (perform_all demo world0
                 (snd (run generate_props mount (conversation ++ [ev_call_end]))))
     = []
  /\ snd (dispatch generate_props (fst (run generate_props mount conversation))
            ev_call_end)
     = [setCallStatus FINISHED; router_push "/"].
Proof.
  split; [|split].
  - apply (generate_never_creates_feedback generate_props mount
             (conversation ++ [ev_call_end]) ev_call_end demo world0).
    reflexivity.
  - apply (generate_never_creates_feedback generate_props mount
             (conversation ++ [ev_call_end]) ev_call_end demo world0).
    reflexivity.
  - apply (generate_never_creates_feedback generate_props
             (fst (run generate_props mount conversation)) [] ev_call_end
             demo world0).
    + reflexivity.
    + vm_compute. discriminate.
    + reflexivity.
Defined.

(** By contrast the same run of an interview call does create a record. *)
Example interview_creates_feedback :
  length (feedback (perform_all demo world0
            (snd (run interview_props mount (conversation ++ [ev_call_end])))))
  = 1.
Proof. reflexivity. Qed.

(** C9.  [handleDisconnect], in a state that is not [FINISHED]: the status
    goes from where it was straight to [FINISHED]; the only status the
    handler writes is [FINISHED]; the teardown of the channel is
    requested; and from [CONNECTING] (or [INACTIVE]) no state on the way
    is [ACTIVE]. *)
Theorem stop_goes_straight_to_FINISHED (props : AgentProps) (s : AgentState) :
  callStatus s <> FINISHED ->
  map callStatus (visited props s [click_end]) = [callStatus s; FINISHED]
  /\ status_writes (handler props click_end) = [FINISHED]
  /\ vapi_stop ∈ snd (dispatch props s click_end)
  /\ (callStatus s <> ACTIVE ->
      Forall (fun t => callStatus t <> ACTIVE) (visited props s [click_end])).
Proof.
  intros Hs. split; [reflexivity|]. split; [reflexivity|]. split.
  - unfold dispatch. simpl. apply list_elem_of_In. simpl. auto.
  - intros Ha. simpl. repeat constructor; simpl; congruence.
Qed.

(** C9 run: the call is being connected when the End handler runs. *)
Lemma stop_goes_straight_to_FINISHED_witness :
  map callStatus
    (visited interview_props (fst (run interview_props mount [click_call]))
       [click_end])
  = [CONNECTING; FINISHED]
  /\ vapi_stop ∈ snd (dispatch interview_props
                        (fst (run interview_props mount [click_call])) click_end)
  /\ Forall (fun t => callStatus t <> ACTIVE)
       (visited interview_props (fst (run interview_props mount [click_call]))
          [click_end]).
Proof.
  destruct (stop_goes_straight_to_FINISHED interview_props
              (fst (run interview_props mount [click_call])))
    as (Hpath & _ & Hstop & Hnever).
  - vm_compute. discriminate.
  - split; [exact Hpath|]. split; [exact Hstop|].
    apply Hnever. vm_compute. discriminate.
Defined.

(* ===================================================================== *)
(** * More on the accounts: sign-up, sign-in, sign-out *)
(* ===================================================================== *)

Lemma signUp_fresh (sv : Services) (params : SignUpParams) (w : World) :
  store_fault sv (UsersGet (signUp_uid params)) = None ->
  store_fault sv (UsersSet (signUp_uid params)) = None ->
  users w !! signUp_uid params = None ->
  signUp sv params w
  = (Resolved (mkAuthResult true "Account created successfully. Please sign in."),
     set_users (insert (signUp_uid params)
                  (<["name" := signUp_name params]>
                     (<["email" := signUp_email params]> ∅))) w).
Proof.
  intros Hget Hset Hfresh. unfold signUp, try_catch, bind.
  rewrite (users_doc_get_served sv _ _ Hget).
  unfold snap_exists. simpl. rewrite Hfresh.
  unfold users_doc_set, store_call. now rewrite Hset.
Qed.

(** X1.  A sign-up of a uid without profile, against a store that serves
    the lookup and the write, succeeds and stores a profile under that uid
    with the name and the email and no other field (the password is not
    stored); the profiles of other uids, the cookies, the interviews and
    the feedback are as before. *)
Theorem signUp_fresh_uid_stores_name_and_email
  (sv : Services) (params : SignUpParams) (w : World) :
  store_fault sv (UsersGet (signUp_uid params)) = None ->
  store_fault sv (UsersSet (signUp_uid params)) = None ->
  users w !! signUp_uid params = None ->
  exists w' profile,
    signUp sv params w
    = (Resolved (mkAuthResult true "Account created successfully. Please sign in."), w')
    /\ users w' !! signUp_uid params = Some profile
    /\ profile !! "name" = Some (signUp_name params)
    /\ profile !! "email" = Some (signUp_email params)
    /\ (forall field, field <> "name" -> field <> "email" -> profile !! field = None)
    /\ (forall uid, uid <> signUp_uid params -> users w' !! uid = users w !! uid)
    /\ cookieStore w' = cookieStore w
    /\ interviews w' = interviews w
    /\ feedback w' = feedback w.
Proof.
  intros Hget Hset Hfresh. do 2 eexists.
  split; [now apply signUp_fresh|]. simpl.
  split; [apply lookup_insert_eq|].
  split; [apply lookup_insert_eq|].
  split; [now rewrite lookup_insert_ne, lookup_insert_eq|].
  split; [intros field H1 H2; now rewrite !lookup_insert_ne, lookup_empty|].
  split; [intros uid Hne; now rewrite lookup_insert_ne|].
  repeat split.
Qed.

(** X1 run: Bob signs up as ["u2"] next to the profile of ["u1"]. *)
Lemma signUp_fresh_uid_stores_name_and_email_witness :
  exists w' profile,
    signUp demo (mkSignUp "u2" "Bob" "bob@example.com" "hunter2") world0
    = (Resolved (mkAuthResult true "Account created successfully. Please sign in."), w')
    /\ users w' !! "u2" = Some profile
    /\ profile !! "name" = Some "Bob"
    /\ profile !! "email" = Some "bob@example.com"
    /\ profile !! "password" = None
    /\ users w' !! "u1" = Some ada.
Proof.
  destruct (signUp_fresh_uid_stores_name_and_email demo
              (mkSignUp "u2" "Bob" "bob@example.com" "hunter2") world0
              eq_refl eq_refl eq_refl)
    as (w' & profile & Hrun & Hp & Hname & Hemail & Hrest & Hothers & _).
  exists w', profile. repeat split; try assumption.
  - apply Hrest; discriminate.
  - rewrite Hothers; [reflexivity|discriminate].
Defined.

(** X2.  Signing up twice: once a sign-up of a fresh uid has gone through,
    a second sign-up with the same uid, whatever name and email it
    carries, is answered with the message for an existing user and leaves
    the first profile in place. *)
Theorem signUp_twice_keeps_first_profile
  (sv : Services) (first second : SignUpParams) (w : World) :
  store_fault sv (UsersGet (signUp_uid first)) = None ->
  store_fault sv (UsersSet (signUp_uid first)) = None ->
  users w !! signUp_uid first = None ->
  signUp_uid second = signUp_uid first ->
  exists w1,
    snd (signUp sv first w) = w1
    /\ signUp sv second w1
       = (Resolved (mkAuthResult false "User already exists. Please sign in instead."),
          w1)
    /\ users w1 !! signUp_uid first
       = Some (<["name" := signUp_name first]>
                 (<["email" := signUp_email first]> ∅)).
Proof.
  intros Hget Hset Hfresh Hsame. eexists. split; [reflexivity|].
  rewrite (signUp_fresh sv first w Hget Hset Hfresh). simpl.
  split; [|apply lookup_insert_eq].
  eapply signUp_taken.
  - now rewrite Hsame.
  - rewrite Hsame. simpl. apply lookup_insert_eq.
Qed.

(** X2 run: ["u2"] signs up as Bob, then again as Mallory. *)
Lemma signUp_twice_keeps_first_profile_witness :
  exists w1,
    snd (signUp demo (mkSignUp "u2" "Bob" "bob@example.com" "hunter2") world0) = w1
    /\ signUp demo (mkSignUp "u2" "Mallory" "mallory@example.com" "x") w1
       = (Resolved (mkAuthResult false "User already exists. Please sign in instead."),
          w1)
    /\ users w1 !! "u2"
       = Some (<["name" := "Bob"]> (<["email" := "bob@example.com"]> ∅)).
Proof.
  exact (signUp_twice_keeps_first_profile demo
           (mkSignUp "u2" "Bob" "bob@example.com" "hunter2")
           (mkSignUp "u2" "Mallory" "mallory@example.com" "x") world0
           eq_refl eq_refl eq_refl eq_refl).
Defined.

(** X3.  A sign-up that is not answered with [success: true], for whatever
    reason (uid taken, lookup or write rejected), has changed nothing. *)
Theorem signUp_without_success_changes_nothing
  (sv : Services) (params : SignUpParams) (w : World) (r : AuthResult) :
  fst (signUp sv params w) = Resolved r ->
  success r = false ->
  snd (signUp sv params w) = w.
Proof.
  intros Hr Hs. apply signUp_failure_writes_nothing. now rewrite Hr.
Qed.

(** X3 run: the store is unreachable. *)
Lemma signUp_without_success_changes_nothing_witness :
  snd (signUp offline (mkSignUp "u2" "Bob" "bob@example.com" "hunter2") world0)
  = world0.
Proof.
  apply (signUp_without_success_changes_nothing offline
           (mkSignUp "u2" "Bob" "bob@example.com" "hunter2") world0
           (mkAuthResult false "Failed to create an account"));
    reflexivity.
Defined.

(** X4.  Sign-up, then the session: with a session cookie that the
    provider verifies as the uid just signed up, [getCurrentUser] answers
    with the name and the email of the sign-up and the uid as [id]. *)
Theorem signUp_then_getCurrentUser
  (sv : Services) (params : SignUpParams) (w : World)
  (cookie : string) (claims : DecodedClaims) :
  store_fault sv (UsersGet (signUp_uid params)) = None ->
  store_fault sv (UsersSet (signUp_uid params)) = None ->
  users w !! signUp_uid params = None ->
  session_value w = Some cookie ->
  cookie <> "" ->
  verifySessionCookie sv cookie true = Resolved claims ->
  claims_uid claims = signUp_uid params ->
  exists current,
    fst (getCurrentUser sv (snd (signUp sv params w))) = Resolved (Some current)
    /\ current !! "id" = Some (signUp_uid params)
    /\ current !! "name" = Some (signUp_name params)
    /\ current !! "email" = Some (signUp_email params).
Proof.
  intros Hget Hset Hfresh Hcookie Hne Hverify Huid.
  rewrite (signUp_fresh sv params w Hget Hset Hfresh). simpl.
  eexists. split.
  - erewrite getCurrentUser_profile; [reflexivity|exact Hcookie|exact Hne
      |exact Hverify|now rewrite Huid|].
    rewrite Huid. simpl. apply lookup_insert_eq.
  - rewrite Huid.
    split; [apply lookup_insert_eq|].
    split; [now rewrite lookup_insert_ne, lookup_insert_eq|].
    rewrite lookup_insert_ne by done. rewrite lookup_insert_ne by done.
    apply lookup_insert_eq.
Qed.

(** X4 run: the browser holds the cookie of ["u2"], who signs up. *)
Lemma signUp_then_getCurrentUser_witness :
  exists current,
    fst (getCurrentUser demo
           (snd (signUp demo (mkSignUp "u2" "Bob" "bob@example.com" "hunter2")
                   (with_session "cookie-bob" world0))))
    = Resolved (Some current)
    /\ current !! "id" = Some "u2"
    /\ current !! "name" = Some "Bob"
    /\ current !! "email" = Some "bob@example.com".
Proof.
  apply (signUp_then_getCurrentUser demo
           (mkSignUp "u2" "Bob" "bob@example.com" "hunter2")
           (with_session "cookie-bob" world0) "cookie-bob" (mkClaims "u2"));
    try reflexivity.
  discriminate.
Defined.

(** X5.  [signIn] sets no cookie when it reports a failure: whenever it
    resolves to an object, that object has [success = false] and the cookie
    store and the document store are as before.  In particular, when the
    account exists but the provider refuses to mint the session cookie
    (for seven days, in milliseconds) from the id token, the answer is the
    generic failure. *)
Theorem signIn_failure_sets_no_cookie
  (sv : Services) (params : SignInParams) (w : World) :
  (forall r, fst (signIn sv params w) = Resolved (Some r) ->
             success r = false /\ snd (signIn sv params w) = w)
  /\ (forall record e,
        getUserByEmail sv (signIn_email params) = Resolved (Some record) ->
        createSessionCookie sv (signIn_idToken params) 604800000 = Rejected e ->
        signIn sv params w
        = (Resolved (Some (mkAuthResult false "Failed to log into an account.")), w)).
Proof.
  split.
  - intros r. unfold signIn, try_catch, bind, await.
    destruct (getUserByEmail sv _) as [[record|]|e]; simpl.
    + unfold setSessionCookie, bind, await.
      destruct (createSessionCookie sv _ _); simpl; [discriminate|].
      intros [= <-]. now split.
    + intros [= <-]. now split.
    + intros [= <-]. now split.
  - intros record e Hu Hc. unfold signIn, try_catch, bind, await. rewrite Hu.
    unfold setSessionCookie, bind, await.
    change (ONE_WEEK * 1000)%N with 604800000%N. now rewrite Hc.
Qed.

(** X5 run: Ada's account exists, the id token is empty and the provider
    refuses it. *)
Lemma signIn_failure_sets_no_cookie_witness :
  signIn demo (mkSignIn "ada@example.com" "") world0
  = (Resolved (Some (mkAuthResult false "Failed to log into an account.")), world0).
Proof.
  apply (signIn_failure_sets_no_cookie demo (mkSignIn "ada@example.com" "") world0)
    with (record := mkUserRecord "u1" "ada@example.com")
         (e := mkError (Some "auth/invalid-id-token") "invalid token");
    reflexivity.
Defined.

(** X6.  Sign-in, then the session: when the account exists and the
    provider mints a cookie from the id token, [signIn] stores it under
    [session] with a max-age of 604800 seconds, http-only, path [/],
    same-site [lax], and [secure] exactly in production; the profiles are
    untouched; and if the provider verifies that cookie as a subject with
    a profile, [isAuthenticated] is true on the next request and
    [getCurrentUser] answers with that profile. *)
Theorem signIn_then_isAuthenticated
  (sv : Services) (params : SignInParams) (w : World)
  (record : UserRecord) (cookie : string) (claims : DecodedClaims)
  (data : UserData) :
  getUserByEmail sv (signIn_email params) = Resolved (Some record) ->
  createSessionCookie sv (signIn_idToken params) 604800000 = Resolved cookie ->
  cookie <> "" ->
  verifySessionCookie sv cookie true = Resolved claims ->
  store_fault sv (UsersGet (claims_uid claims)) = None ->
  users w !! claims_uid claims = Some data ->
  exists w',
    signIn sv params w = (Resolved None, w')
    /\ cookieStore w' !! "session"
       = Some (mkCookie cookie 604800 true
                 (bool_decide (NODE_ENV sv = "production")) "/" "lax")
    /\ users w' = users w
    /\ isAuthenticated sv w' = (Resolved true, w')
    /\ getCurrentUser sv w'
       = (Resolved (Some (<["id" := claims_uid claims]> data)), w').
Proof.
  intros Hu Hc Hne Hv Hs Hd. eexists.
  split; [exact (signIn_established sv params w record cookie Hu Hc)|].
  assert (Hsession :
    session_value
      (set_cookieStore
         (insert "session"
            (mkCookie cookie ONE_WEEK true
               (String.eqb (NODE_ENV sv) "production") "/" "lax")) w)
    = Some cookie).
  { unfold session_value. simpl. now rewrite lookup_insert_eq. }
  assert (Hcurrent := getCurrentUser_profile sv _ cookie claims data
                        Hsession Hne Hv Hs Hd).
  split.
  { simpl. rewrite lookup_insert_eq. do 2 f_equal.
    destruct (String.eqb_spec (NODE_ENV sv) "production") as [He|He].
    - now rewrite bool_decide_eq_true_2.
    - now rewrite bool_decide_eq_false_2. }
  split; [reflexivity|].
  split; [|exact Hcurrent].
  now rewrite (isAuthenticated_unfold sv _ _ Hcurrent).
Qed.

(** X6 run: Ada signs in with the id token ["ada"]. *)
Lemma signIn_then_isAuthenticated_witness :
  exists w',
    signIn demo (mkSignIn "ada@example.com" "ada") world0 = (Resolved None, w')
    /\ cookieStore w' !! "session"
       = Some (mkCookie "cookie-ada" 604800 true true "/" "lax")
    /\ isAuthenticated demo w' = (Resolved true, w')
    /\ getCurrentUser demo w' = (Resolved (Some (<["id" := "u1"]> ada)), w').
Proof.
  destruct (signIn_then_isAuthenticated demo (mkSignIn "ada@example.com" "ada")
              world0 (mkUserRecord "u1" "ada@example.com") "cookie-ada"
              (mkClaims "u1") ada)
    as (w' & Hrun & Hcookie & _ & Hauth & Hcurrent);
    try reflexivity; [discriminate|].
  exists w'. repeat split; assumption.
Defined.

(** X7.  [signOut] removes the session cookie and nothing else, then
    redirects to the sign-in page; on the next request [getCurrentUser]
    answers null and [isAuthenticated] false, whoever was signed in. *)
Theorem signOut_then_unauthenticated (sv : Services) (w : World) :
  fst (signOut sv w) = Rejected (mkError (Some "NEXT_REDIRECT") "/sign-in")
  /\ cookieStore (snd (signOut sv w)) = delete "session" (cookieStore w)
  /\ users (snd (signOut sv w)) = users w
  /\ interviews (snd (signOut sv w)) = interviews w
  /\ feedback (snd (signOut sv w)) = feedback w
  /\ getCurrentUser sv (snd (signOut sv w)) = (Resolved None, snd (signOut sv w))
  /\ isAuthenticated sv (snd (signOut sv w)) = (Resolved false, snd (signOut sv w)).
Proof.
  assert (Hnone : session_value (snd (signOut sv w)) = None).
  { unfold session_value. simpl. now rewrite lookup_delete_eq. }
  repeat split; try reflexivity.
  - now apply getCurrentUser_no_cookie.
  - apply (isAuthenticated_unfold sv _ None).
    now apply getCurrentUser_no_cookie.
Qed.

(** Ada signs in and out again. *)
Example signIn_signOut_run :
  isAuthenticated demo
    (snd (signOut demo
            (snd (signIn demo (mkSignIn "ada@example.com" "ada") world0))))
  = (Resolved false, world0).
Proof. reflexivity. Qed.

(* ===================================================================== *)
(** * More on the interview repository and the feedback *)
(* ===================================================================== *)

(** X8.  When the store serves the query, [getInterviewsByUserId] answers
    with all the interviews of that user and no other, finalized or not,
    without any cap, newest first. *)
Theorem getInterviewsByUserId_all_own_newest_first
  (sv : Services) (userId : string) (w : World) :
  store_fault sv (InterviewsByUser userId) = None ->
  exists r,
    getInterviewsByUserId sv userId w = (Resolved r, w)
    /\ (forall i, i ∈ r <-> i ∈ interviews w /\ interview_userId i = userId)
    /\ length r
       = count (fun i => String.eqb (interview_userId i) userId) (interviews w)
    /\ StronglySorted at_least_as_new r.
Proof.
  intros Hserved. unfold getInterviewsByUserId, store_call. rewrite Hserved.
  unfold gets. eexists. split; [reflexivity|].
  split; [|split].
  - intros i.
    rewrite orderBy_createdAt_desc_perm, list_elem_of_In, filter_In,
      <- list_elem_of_In, String.eqb_eq.
    reflexivity.
  - unfold count. now rewrite (Permutation_length (orderBy_createdAt_desc_perm _)).
  - apply orderBy_createdAt_desc_sorted.
Qed.

(** X8 run: ["u2"] owns three of the four interviews, one of them a draft. *)
Lemma getInterviewsByUserId_all_own_newest_first_witness :
  exists r,
    getInterviewsByUserId demo "u2" world_of_interviews
    = (Resolved r, world_of_interviews)
    /\ length r = 3
    /\ april_draft ∈ r
    /\ StronglySorted at_least_as_new r.
Proof.
  destruct (getInterviewsByUserId_all_own_newest_first demo "u2"
              world_of_interviews eq_refl)
    as (r & Hrun & Hmem & Hlen & Hsorted).
  exists r. repeat split; try assumption.
  apply Hmem. split; [|reflexivity].
  apply list_elem_of_In. simpl. auto.
Defined.

(** X9.  The two lists of a user's dashboard never share an interview:
    what [getInterviewsByUserId] answers for a user does not occur in what
    [getLatestInterviews] answers for the same user, whatever the limit. *)
Theorem own_and_latest_interviews_disjoint
  (sv : Services) (userId : string) (limit : option nat) (w : World)
  (own latest : list Interview) (i : Interview) :
  fst (getInterviewsByUserId sv userId w) = Resolved own ->
  fst (getLatestInterviews sv (mkLatest userId limit) w) = Resolved latest ->
  i ∈ own -> i ∉ latest.
Proof.
  unfold getInterviewsByUserId, getLatestInterviews, store_call. simpl.
  destruct (store_fault sv (InterviewsByUser userId)); [discriminate|].
  destruct (store_fault sv (InterviewsLatest userId)); [discriminate|].
  simpl. intros [= <-] [= <-] Hown Hlatest.
  apply subseteq_take, elem_of_discoverable in Hlatest as (_ & _ & Hother).
  rewrite orderBy_createdAt_desc_perm, list_elem_of_In, filter_In,
    String.eqb_eq in Hown.
  now destruct Hown.
Qed.

(** X9 run: February is one of the interviews of ["u2"], so it is not
    among those offered to ["u2"]. *)
Lemma own_and_latest_interviews_disjoint_witness :
  fst (getInterviewsByUserId demo "u2" world_of_interviews)
  = Resolved [april_draft; february; january]
  /\ fst (getLatestInterviews demo (mkLatest "u2" (Some 2)) world_of_interviews)
     = Resolved [march]
  /\ february ∉ [march].
Proof.
  split; [reflexivity|]. split; [reflexivity|].
  apply (own_and_latest_interviews_disjoint demo "u2" (Some 2)
           world_of_interviews [april_draft; february; january] [march]);
    [reflexivity | reflexivity |].
  apply list_elem_of_In. simpl. auto.
Defined.

Lemma find_by_id (l : list Interview) (i : Interview) :
  NoDup (map interview_id l) ->
  i ∈ l ->
  List.find (fun j => String.eqb (interview_id j) (interview_id i)) l = Some i.
Proof.
  induction l as [|j l IH]; intros Hnd Hin; [now apply elem_of_nil in Hin|].
  simpl in Hnd. apply NoDup_cons in Hnd as [Hj Hnd].
  simpl. destruct (String.eqb_spec (interview_id j) (interview_id i)) as [He|He].
  - apply elem_of_cons in Hin as [->|Hin]; [reflexivity|].
    exfalso. apply Hj. rewrite He. apply list_elem_of_fmap. now exists i.
  - apply elem_of_cons in Hin as [->|Hin]; [congruence|]. now apply IH.
Qed.

Lemma find_by_id_none (l : list Interview) (id : string) :
  id ∉ map interview_id l ->
  List.find (fun j => String.eqb (interview_id j) id) l = None.
Proof.
  induction l as [|j l IH]; intros Hout; [reflexivity|].
  simpl in *. apply not_elem_of_cons in Hout as [Hne Hout].
  destruct (String.eqb_spec (interview_id j) id) as [He|He]; [congruence|].
  now apply IH.
Qed.

(** X10.  Document ids being unique, [getInterviewById] on the id of an
    interview of the store answers with the fields of that interview
    (without the id), and on an id that no interview has it answers with
    nothing, provided the store serves the read. *)
Theorem getInterviewById_reads_the_document
  (sv : Services) (w : World) (id : string) :
  NoDup (map interview_id (interviews w)) ->
  store_fault sv (InterviewGet id) = None ->
  (forall i, i ∈ interviews w -> interview_id i = id ->
             getInterviewById sv id w = (Resolved (Some (interview_data i)), w))
  /\ (id ∉ map interview_id (interviews w) ->
      getInterviewById sv id w = (Resolved None, w)).
Proof.
  intros Hnd Hserved. unfold getInterviewById, store_call. rewrite Hserved.
  unfold gets. split.
  - intros i Hin <-. now rewrite (find_by_id _ i Hnd Hin).
  - intros Hout. now rewrite find_by_id_none.
Qed.

(** X10 run: the interview ["i2"] is there, ["i9"] is not. *)
Lemma getInterviewById_reads_the_document_witness :
  getInterviewById demo "i2" world_of_interviews
  = (Resolved (Some (interview_data march)), world_of_interviews)
  /\ getInterviewById demo "i9" world_of_interviews
     = (Resolved None, world_of_interviews).
Proof.
  split.
  - apply (getInterviewById_reads_the_document demo world_of_interviews "i2");
      [apply (bool_decide_unpack _); vm_compute; exact I | reflexivity | | reflexivity].
    apply list_elem_of_In. simpl. auto.
  - apply (getInterviewById_reads_the_document demo world_of_interviews "i9");
      [apply (bool_decide_unpack _); vm_compute; exact I | reflexivity |].
    apply (bool_decide_unpack _). vm_compute. exact I.
Defined.

(** ** Feedback *)

Lemma field_is_Some (field : option string) (v : string) :
  field_is field v = true <-> field = Some v.
Proof.
  destruct field as [f|]; simpl; [|split; discriminate].
  rewrite String.eqb_eq. split; congruence.
Qed.

Lemma feedback_of_spec (interviewId userId : string) (f : Feedback) :
  feedback_of interviewId userId f = true
  <-> feedback_interviewId f = Some interviewId
      /\ feedback_userId f = Some userId.
Proof. unfold feedback_of. now rewrite andb_true_iff, !field_is_Some. Qed.

(** The read, served: the first match in the order of the store. *)
Lemma getFeedbackByInterviewId_served
  (sv : Services) (params : GetFeedbackByInterviewIdParams) (w : World) :
  store_fault sv FeedbackQuery = None ->
  getFeedbackByInterviewId sv params w
  = (Resolved (head (List.filter
                       (feedback_of (get_interviewId params) (get_userId params))
                       (feedback w))), w).
Proof.
  intros Hserved. unfold getFeedbackByInterviewId, bind, store_call.
  rewrite Hserved. unfold gets, feedback_of.
  now destruct (List.filter _ (feedback w)).
Qed.

Lemma createFeedback_outcome
  (sv : Services) (params : CreateFeedbackParams) (w : World) :
  exists r w',
    createFeedback sv params w = (Resolved r, w')
    /\ ((r = mkFeedbackResult false None /\ w' = w)
        \/ (exists object,
              generateObject sv
                (mkRequest "gemini-2.0-flash-001"
                   (feedbackPrompt (formatTranscript (params_transcript params)))
                   feedbackSystem)
              = Resolved object
              /\ r = mkFeedbackResult true (Some (autoId sv (feedback w)))
              /\ feedback w'
                 = feedback w
                   ++ [mkFeedback (autoId sv (feedback w))
                         (params_interviewId params) (params_userId params)
                         object (now sv)]
              /\ users w' = users w
              /\ interviews w' = interviews w
              /\ cookieStore w' = cookieStore w)).
Proof.
  unfold createFeedback, try_catch, bind, await.
  destruct (generateObject sv _) as [object|e] eqn:Hmodel.
  - unfold feedback_add, store_call.
    destruct (store_fault sv FeedbackAdd) as [e|]; simpl.
    + do 2 eexists. split; [reflexivity|]. now left.
    + do 2 eexists. split; [reflexivity|]. right. exists object.
      repeat split.
  - do 2 eexists. split; [reflexivity|]. now left.
Qed.

(** X11.  [createFeedback] stores one record or nothing: it always
    resolves, and either it answers [success: false] without a
    [feedbackId] and the stores are as before, or the model has answered,
    the answer carries the id the store gave the new record, and the
    [feedback] collection has grown by exactly that record (the given
    identifiers, the model's object, the current time) while the rest is
    as before. *)
Theorem createFeedback_stores_one_record_or_nothing
  (sv : Services) (params : CreateFeedbackParams) (w : World) :
  exists r w',
    createFeedback sv params w = (Resolved r, w')
    /\ ((r = mkFeedbackResult false None /\ w' = w)
        \/ (exists object,
              generateObject sv
                (mkRequest "gemini-2.0-flash-001"
                   (feedbackPrompt (formatTranscript (params_transcript params)))
                   feedbackSystem)
              = Resolved object
              /\ r = mkFeedbackResult true (Some (autoId sv (feedback w)))
              /\ feedback w'
                 = feedback w
                   ++ [mkFeedback (autoId sv (feedback w))
                         (params_interviewId params) (params_userId params)
                         object (now sv)]
              /\ users w' = users w
              /\ interviews w' = interviews w
              /\ cookieStore w' = cookieStore w)).
Proof. apply createFeedback_outcome. Qed.

(** X12.  What [getFeedbackByInterviewId] answers when the store serves
    the query: nothing exactly when no record of the collection carries
    both the interview id and the user id, and otherwise a record of the
    collection that carries both. *)
Theorem getFeedbackByInterviewId_matches_both_ids
  (sv : Services) (params : GetFeedbackByInterviewIdParams) (w : World) :
  store_fault sv FeedbackQuery = None ->
  exists r,
    getFeedbackByInterviewId sv params w = (Resolved r, w)
    /\ (r = None
        <-> forall f, f ∈ feedback w ->
              ~ (feedback_interviewId f = Some (get_interviewId params)
                 /\ feedback_userId f = Some (get_userId params)))
    /\ (forall f, r = Some f ->
          f ∈ feedback w
          /\ feedback_interviewId f = Some (get_interviewId params)
          /\ feedback_userId f = Some (get_userId params)).
Proof.
  intros Hserved. eexists.
  split; [now apply getFeedbackByInterviewId_served|].
  set (matching := List.filter _ (feedback w)).
  assert (Hmatching : forall f, f ∈ matching <->
            f ∈ feedback w
            /\ feedback_interviewId f = Some (get_interviewId params)
            /\ feedback_userId f = Some (get_userId params)).
  { intros f. unfold matching.
    now rewrite list_elem_of_In, filter_In, <- list_elem_of_In, feedback_of_spec. }
  split.
  - split.
    + intros Hnone f Hin Hboth.
      assert (Hf : f ∈ matching) by now apply Hmatching.
      destruct matching; [now apply elem_of_nil in Hf|discriminate].
    + intros Hno. destruct matching as [|f rest] eqn:E; [reflexivity|].
      exfalso. apply (Hno f); apply (Hmatching f); left.
  - intros f Hf. apply Hmatching.
    destruct matching as [|g rest]; [discriminate|].
    injection Hf as ->. left.
Qed.

(** X12 run: nothing has been stored for ["i1"] and ["u1"] yet. *)
Lemma getFeedbackByInterviewId_matches_both_ids_witness :
  getFeedbackByInterviewId demo (mkGetFeedback "i1" "u1") world0
  = (Resolved None, world0).
Proof.
  destruct (getFeedbackByInterviewId_matches_both_ids demo
              (mkGetFeedback "i1" "u1") world0 eq_refl)
    as (r & Hrun & Hnone & _).
  rewrite Hrun. f_equal. f_equal. apply Hnone.
  intros f Hin. now apply elem_of_nil in Hin.
Defined.

(** X13.  Write, then read: after a [createFeedback] for an interview and
    a user that succeeded, [getFeedbackByInterviewId] for that pair finds
    a record; and if no record of the pair existed before, it finds the
    one just created, under the [feedbackId] that was answered. *)
Theorem createFeedback_then_getFeedbackByInterviewId
  (sv : Services) (interviewId userId : string)
  (transcript : list SavedMessage) (w w' : World) (id : string) :
  createFeedback sv (mkCreateFeedback (Some interviewId) (Some userId) transcript) w
  = (Resolved (mkFeedbackResult true (Some id)), w') ->
  store_fault sv FeedbackQuery = None ->
  exists f,
    getFeedbackByInterviewId sv (mkGetFeedback interviewId userId) w'
    = (Resolved (Some f), w')
    /\ feedback_interviewId f = Some interviewId
    /\ feedback_userId f = Some userId
    /\ ((forall g, g ∈ feedback w ->
            ~ (feedback_interviewId g = Some interviewId
               /\ feedback_userId g = Some userId)) ->
        feedback_id f = id /\ feedback_createdAt f = now sv).
Proof.
  intros Hrun Hserved.
  destruct (createFeedback_outcome sv
              (mkCreateFeedback (Some interviewId) (Some userId) transcript) w)
    as (r & w1 & Hrun1 & Hcases).
  rewrite Hrun in Hrun1. injection Hrun1 as <- <-.
  destruct Hcases as [[Hfail _]|(object & _ & Hr & Hfb & _)]; [discriminate|].
  injection Hr as ->.
  rewrite (getFeedbackByInterviewId_served sv _ _ Hserved). simpl.
  rewrite Hfb, List.filter_app. simpl.
  unfold feedback_of at 2. simpl. rewrite !String.eqb_refl. simpl.
  destruct (List.filter _ (feedback w)) as [|g rest] eqn:E; simpl.
  - eexists. split; [reflexivity|]. simpl. repeat split.
  - assert (Hg : g ∈ List.filter (feedback_of interviewId userId) (feedback w)).
    { rewrite E. left. }
    rewrite list_elem_of_In, filter_In, <- list_elem_of_In, feedback_of_spec in Hg.
    destruct Hg as (Hin & Hi & Hu).
    exists g. split; [reflexivity|]. split; [exact Hi|]. split; [exact Hu|].
    intros Hno. exfalso. now apply (Hno g).
Qed.

(** X13 run: the first feedback of ["u1"] on ["i1"]. *)
Lemma createFeedback_then_getFeedbackByInterviewId_witness :
  exists f,
    getFeedbackByInterviewId demo (mkGetFeedback "i1" "u1")
      (snd (createFeedback demo
              (mkCreateFeedback (Some "i1") (Some "u1") [mkSaved User "Hello"])
              world0))
    = (Resolved (Some f),
       snd (createFeedback demo
              (mkCreateFeedback (Some "i1") (Some "u1") [mkSaved User "Hello"])
              world0))
    /\ feedback_id f = "fb0".
Proof.
  destruct (createFeedback_then_getFeedbackByInterviewId demo "i1" "u1"
              [mkSaved User "Hello"] world0
              (snd (createFeedback demo
                      (mkCreateFeedback (Some "i1") (Some "u1")
                         [mkSaved User "Hello"]) world0))
              "fb0" eq_refl eq_refl)
    as (f & Hrun & _ & _ & Hnew).
  exists f. split; [exact Hrun|].
  apply Hnew. intros g Hin. now apply elem_of_nil in Hin.
Defined.

Lemma createFeedback_served
  (sv : Services) (params : CreateFeedbackParams) (w : World)
  (object : FeedbackObject) :
  generateObject sv
    (mkRequest "gemini-2.0-flash-001"
       (feedbackPrompt (formatTranscript (params_transcript params)))
       feedbackSystem)
  = Resolved object ->
  store_fault sv FeedbackAdd = None ->
  createFeedback sv params w
  = (Resolved (mkFeedbackResult true (Some (autoId sv (feedback w)))),
     set_feedback
       (fun docs =>
          docs ++ [mkFeedback (autoId sv (feedback w))
                     (params_interviewId params) (params_userId params)
                     object (now sv)]) w).
Proof.
  intros Hmodel Hserved. unfold createFeedback, try_catch, bind, await.
  rewrite Hmodel. unfold feedback_add, store_call. now rewrite Hserved.
Qed.

(** X14.  [createFeedback] is not idempotent: called twice with the same
    parameters, with the model answering and the store serving, it
    succeeds twice and the collection holds two records for the pair, the
    second under the id the store gives after the first. *)
Theorem createFeedback_twice_stores_two_records
  (sv : Services) (params : CreateFeedbackParams) (w : World)
  (object : FeedbackObject) :
  generateObject sv
    (mkRequest "gemini-2.0-flash-001"
       (feedbackPrompt (formatTranscript (params_transcript params)))
       feedbackSystem)
  = Resolved object ->
  store_fault sv FeedbackAdd = None ->
  exists first second,
    feedback_id first = autoId sv (feedback w)
    /\ feedback_id second = autoId sv (feedback w ++ [first])
    /\ feedback_interviewId first = params_interviewId params
    /\ feedback_interviewId second = params_interviewId params
    /\ feedback_userId first = params_userId params
    /\ feedback_userId second = params_userId params
    /\ fst (createFeedback sv params w)
       = Resolved (mkFeedbackResult true (Some (feedback_id first)))
    /\ fst (createFeedback sv params (snd (createFeedback sv params w)))
       = Resolved (mkFeedbackResult true (Some (feedback_id second)))
    /\ feedback (snd (createFeedback sv params (snd (createFeedback sv params w))))
       = feedback w ++ [first; second].
Proof.
  intros Hmodel Hserved.
  rewrite (createFeedback_served sv params w object Hmodel Hserved). cbn [fst snd].
  rewrite (createFeedback_served sv params _ object Hmodel Hserved). cbn [fst snd].
  exists (mkFeedback (autoId sv (feedback w))
            (params_interviewId params) (params_userId params) object (now sv)).
  eexists (mkFeedback _ (params_interviewId params) (params_userId params)
             object (now sv)).
  simpl. repeat split. now rewrite <- app_assoc.
Qed.

(** X14 run: the same transcript is submitted twice. *)
Lemma createFeedback_twice_stores_two_records_witness :
  map feedback_id
    (feedback
       (snd (createFeedback demo
               (mkCreateFeedback (Some "i1") (Some "u1") [mkSaved User "Hello"])
               (snd (createFeedback demo
                       (mkCreateFeedback (Some "i1") (Some "u1")
                          [mkSaved User "Hello"]) world0)))))
  = ["fb0"; "fb1"].
Proof.
  destruct (createFeedback_twice_stores_two_records demo
              (mkCreateFeedback (Some "i1") (Some "u1") [mkSaved User "Hello"])
              world0
              (mkFeedbackObject 70 [("Communication Skills", 70%Z)]
                 ["clear"] ["depth"] "solid") eq_refl eq_refl)
    as (first & second & H1 & H2 & _ & _ & _ & _ & _ & _ & Hall).
  rewrite Hall. simpl. rewrite H2. destruct first as [id1 ? ? ? ?].
  simpl in H1. subst id1. reflexivity.
Defined.

(** X15.  While the document store rejects every call: the four reads
    ([getInterviewsByUserId], [getLatestInterviews], [getInterviewById],
    [getFeedbackByInterviewId]) reject with the store's error, having no
    handler of their own; [signUp] and [createFeedback] resolve to
    [success: false] and [getCurrentUser] to null; and nothing is changed
    by any of them. *)
Theorem store_outage (sv : Services) (w : World) :
  (forall call, exists e, store_fault sv call = Some e) ->
  (forall userId, exists e,
     store_fault sv (InterviewsByUser userId) = Some e
     /\ getInterviewsByUserId sv userId w = (Rejected e, w))
  /\ (forall params, exists e,
        store_fault sv (InterviewsLatest (latest_userId params)) = Some e
        /\ getLatestInterviews sv params w = (Rejected e, w))
  /\ (forall id, exists e,
        store_fault sv (InterviewGet id) = Some e
        /\ getInterviewById sv id w = (Rejected e, w))
  /\ (forall params, exists e,
        store_fault sv FeedbackQuery = Some e
        /\ getFeedbackByInterviewId sv params w = (Rejected e, w))
  /\ (forall params, exists msg,
        signUp sv params w = (Resolved (mkAuthResult false msg), w))
  /\ (forall params,
        createFeedback sv params w = (Resolved (mkFeedbackResult false None), w))
  /\ getCurrentUser sv w = (Resolved None, w).
Proof.
  intros Hout. split; [|split; [|split; [|split; [|split; [|split]]]]].
  - intros userId. destruct (Hout (InterviewsByUser userId)) as [e He].
    exists e. split; [exact He|].
    unfold getInterviewsByUserId, store_call. now rewrite He.
  - intros params. destruct (Hout (InterviewsLatest (latest_userId params))) as [e He].
    exists e. split; [exact He|].
    unfold getLatestInterviews, store_call. now rewrite He.
  - intros id. destruct (Hout (InterviewGet id)) as [e He].
    exists e. split; [exact He|].
    unfold getInterviewById, store_call. now rewrite He.
  - intros params. destruct (Hout FeedbackQuery) as [e He].
    exists e. split; [exact He|].
    unfold getFeedbackByInterviewId, bind, store_call. now rewrite He.
  - intros params. destruct (Hout (UsersGet (signUp_uid params))) as [e He].
    eexists. apply signUp_lookup_rejected. exact He.
  - intros params. destruct (Hout FeedbackAdd) as [e He].
    unfold createFeedback, try_catch, bind, await.
    destruct (generateObject sv _); [|reflexivity].
    unfold feedback_add, store_call. now rewrite He.
  - destruct (getCurrentUser_total sv w) as [[u|] Hr]; [|exact Hr].
    exfalso. revert Hr. unfold getCurrentUser, bind, gets.
    destruct (session_value w) as [cookie|]; [|discriminate].
    destruct (String.eqb cookie ""); [discriminate|].
    unfold try_catch, bind, await.
    destruct (verifySessionCookie sv cookie true) as [claims|e]; [|discriminate].
    destruct (Hout (UsersGet (claims_uid claims))) as [e He].
    unfold users_doc_get, store_call. rewrite He. discriminate.
Qed.

(** X15 run: Ada's browser holds her cookie while the store is down. *)
Lemma store_outage_witness :
  getLatestInterviews offline (mkLatest "u1" None) (with_session "cookie-ada" world0)
  = (Rejected network_error, with_session "cookie-ada" world0)
  /\ createFeedback offline (mkCreateFeedback (Some "i1") (Some "u1") [])
       (with_session "cookie-ada" world0)
     = (Resolved (mkFeedbackResult false None), with_session "cookie-ada" world0)
  /\ getCurrentUser offline (with_session "cookie-ada" world0)
     = (Resolved None, with_session "cookie-ada" world0).
Proof.
  destruct (store_outage offline (with_session "cookie-ada" world0))
    as (_ & Hlatest & _ & _ & _ & Hcreate & Hcurrent).
  - intros call. now exists network_error.
  - split; [|split; [apply Hcreate|exact Hcurrent]].
    destruct (Hlatest (mkLatest "u1" None)) as (e & Hfault & He).
    injection Hfault as <-. exact He.
Defined.

(* ===================================================================== *)
(** * Submitting the form *)
(* ===================================================================== *)

(** X16.  Sign-up refused by the provider (an email already registered,
    a weak password): the server's [signUp] is not reached, so no profile
    is written and nothing else changes; the form shows the error and
    does not navigate. *)
Theorem onSubmit_sign_up_refused_by_provider
  (client : ClientAuth) (sv : Services) (data : FormData) (w : World)
  (e : JsError) :
  createUserWithEmailAndPassword client (form_email data) (form_password data)
  = Rejected e ->
  onSubmit client sv sign_up data w
  = (Resolved [form_log; toast_error ("There was an error: " +:+ text e)], w).
Proof.
  intros Hrefused. unfold onSubmit, try_catch, bind, await. now rewrite Hrefused.
Qed.

(** X16 run: a second account for ada@example.com. *)
Lemma onSubmit_sign_up_refused_by_provider_witness :
  onSubmit demo_client demo sign_up (mkFormData "Eve" "ada@example.com" "pw") world0
  = (Resolved
       [form_log;
        toast_error
          "There was an error: FirebaseError: Firebase: Error (auth/email-already-in-use)."],
     world0).
Proof.
  apply (onSubmit_sign_up_refused_by_provider demo_client demo
           (mkFormData "Eve" "ada@example.com" "pw") world0
           (mkError (Some "auth/email-already-in-use")
              "FirebaseError: Firebase: Error (auth/email-already-in-use).")).
  reflexivity.
Defined.

(** X17.  Sign-up accepted by the provider, the store serving: if the uid
    the provider issued has no profile yet, the profile is written under
    that uid with the name and the email of the form, and the form
    announces the account and goes to the sign-in page; if the uid has a
    profile, nothing is written, the form shows the message of [signUp]
    and stays where it is. *)
Theorem onSubmit_sign_up_accepted_by_provider
  (client : ClientAuth) (sv : Services) (data : FormData) (w : World)
  (userCredential : UserCredential) :
  createUserWithEmailAndPassword client (form_email data) (form_password data)
  = Resolved userCredential ->
  store_fault sv (UsersGet (credential_uid userCredential)) = None ->
  store_fault sv (UsersSet (credential_uid userCredential)) = None ->
  (users w !! credential_uid userCredential = None ->
   exists w',
     onSubmit client sv sign_up data w
     = (Resolved [toast_success "Account created successfully. Please sign in.";
                  form_push "/sign-in"], w')
     /\ users w' !! credential_uid userCredential
        = Some (<["name" := form_name data]> (<["email" := form_email data]> ∅)))
  /\ (is_Some (users w !! credential_uid userCredential) ->
      onSubmit client sv sign_up data w
      = (Resolved [toast_error "User already exists. Please sign in instead."], w)).
Proof.
  intros Hcreated Hget Hset. split.
  - intros Hfresh. eexists. unfold onSubmit, try_catch, bind, await.
    rewrite Hcreated.
    rewrite (signUp_fresh sv (mkSignUp _ _ _ _) w Hget Hset Hfresh). simpl.
    split; [reflexivity|]. apply lookup_insert_eq.
  - intros [profile Htaken]. unfold onSubmit, try_catch, bind, await.
    rewrite Hcreated.
    now rewrite (signUp_taken sv (mkSignUp _ _ _ _) w profile Hget Htaken).
Qed.

(** X17 run: Bob creates his account, as ["u2"]; then the form is
    submitted a second time. *)
Lemma onSubmit_sign_up_accepted_by_provider_witness :
  (exists w',
     onSubmit demo_client demo sign_up
       (mkFormData "Bob" "bob@example.com" "hunter2") world0
     = (Resolved [toast_success "Account created successfully. Please sign in.";
                  form_push "/sign-in"], w')
     /\ users w' !! "u2"
        = Some (<["name" := "Bob"]> (<["email" := "bob@example.com"]> ∅)))
  /\ onSubmit demo_client demo sign_up
       (mkFormData "Bob" "bob@example.com" "hunter2")
       (set_users (insert "u2" ada) world0)
     = (Resolved [toast_error "User already exists. Please sign in instead."],
        set_users (insert "u2" ada) world0).
Proof.
  split.
  - apply (onSubmit_sign_up_accepted_by_provider demo_client demo
             (mkFormData "Bob" "bob@example.com" "hunter2") world0
             (mkCredential "u2" (Resolved "bob")));
      reflexivity.
  - apply (onSubmit_sign_up_accepted_by_provider demo_client demo
             (mkFormData "Bob" "bob@example.com" "hunter2")
             (set_users (insert "u2" ada) world0)
             (mkCredential "u2" (Resolved "bob")));
      try reflexivity.
    exists ada. reflexivity.
Defined.

(** X18.  Sign-in: once the provider's client has signed the user in and
    handed out a non-empty id token, the form announces the sign-in and
    goes to the landing page whatever the server's [signIn] answers; the
    answer is not looked at, so this is also what happens when [signIn]
    reports a failure and has set no cookie. *)
Theorem onSubmit_sign_in_announces_success
  (client : ClientAuth) (sv : Services) (data : FormData) (w : World)
  (userCredential : UserCredential) (idToken : string) :
  signInWithEmailAndPassword client (form_email data) (form_password data)
  = Resolved userCredential ->
  getIdToken userCredential = Resolved idToken ->
  idToken <> "" ->
  onSubmit client sv sign_in data w
  = (Resolved [toast_success "Signed in successfully."; form_push "/"],
     snd (signIn sv (mkSignIn (form_email data) idToken) w)).
Proof.
  intros Hsigned Htoken Hne. unfold onSubmit, try_catch, bind, await.
  rewrite Hsigned, Htoken. apply String.eqb_neq in Hne. rewrite Hne.
  destruct (signIn_total sv (mkSignIn (form_email data) idToken) w)
    as (r & w' & Hrun).
  now rewrite Hrun.
Qed.

(** X18 run: the server does not know eve@example.com, [signIn] answers
    with a failure and sets no cookie, and the form announces a sign-in. *)
Lemma onSubmit_sign_in_announces_success_witness :
  fst (signIn demo (mkSignIn "eve@example.com" "ada") world0)
  = Resolved (Some (mkAuthResult false
                      "User does not exist. Create an account instead."))
  /\ onSubmit demo_client demo sign_in (mkFormData "" "eve@example.com" "secret")
       world0
     = (Resolved [toast_success "Signed in successfully."; form_push "/"], world0).
Proof.
  split; [reflexivity|].
  apply (onSubmit_sign_in_announces_success demo_client demo
           (mkFormData "" "eve@example.com" "secret") world0
           (mkCredential "u1" (Resolved "ada")) "ada");
    [reflexivity | reflexivity | discriminate].
Defined.

(** X19.  Sign-in stopped on the client: when the provider's client
    rejects the credentials, when the id token cannot be had, or when it
    is empty, the server's [signIn] is not reached, so no cookie is set
    and nothing changes; the form shows an error and does not navigate. *)
Theorem onSubmit_sign_in_stopped_on_client
  (client : ClientAuth) (sv : Services) (data : FormData) (w : World) :
  (forall e,
     signInWithEmailAndPassword client (form_email data) (form_password data)
     = Rejected e ->
     onSubmit client sv sign_in data w
     = (Resolved [form_log; toast_error ("There was an error: " +:+ text e)], w))
  /\ (forall userCredential e,
        signInWithEmailAndPassword client (form_email data) (form_password data)
        = Resolved userCredential ->
        getIdToken userCredential = Rejected e ->
        onSubmit client sv sign_in data w
        = (Resolved [form_log; toast_error ("There was an error: " +:+ text e)], w))
  /\ (forall userCredential,
        signInWithEmailAndPassword client (form_email data) (form_password data)
        = Resolved userCredential ->
        getIdToken userCredential = Resolved "" ->
        onSubmit client sv sign_in data w
        = (Resolved [toast_error "Sign in Failed. Please try again."], w)).
Proof.
  split; [|split].
  - intros e Hrejected. unfold onSubmit, try_catch, bind, await.
    now rewrite Hrejected.
  - intros userCredential e Hsigned Htoken.
    unfold onSubmit, try_catch, bind, await. now rewrite Hsigned, Htoken.
  - intros userCredential Hsigned Htoken.
    unfold onSubmit, try_catch, bind, await. now rewrite Hsigned, Htoken.
Qed.

(** X19 run: a wrong password. *)
Lemma onSubmit_sign_in_stopped_on_client_witness :
  onSubmit demo_client demo sign_in (mkFormData "" "ada@example.com" "guess") world0
  = (Resolved
       [form_log;
        toast_error
          "There was an error: FirebaseError: Firebase: Error (auth/invalid-credential)."],
     world0).
Proof.
  apply (onSubmit_sign_in_stopped_on_client demo_client demo
           (mkFormData "" "ada@example.com" "guess") world0)
    with (e := mkError (Some "auth/invalid-credential")
                 "FirebaseError: Firebase: Error (auth/invalid-credential).").
  reflexivity.
Defined.

(** X28.  Sign-in from the form to the next request: when the provider's
    client hands out a non-empty id token, the server knows the account
    and mints a session cookie from the token, and that cookie verifies
    as a subject with a profile, then after the form has been submitted
    [isAuthenticated] is true and [getCurrentUser] answers with that
    profile. *)
Theorem onSubmit_sign_in_then_isAuthenticated
  (client : ClientAuth) (sv : Services) (data : FormData) (w : World)
  (userCredential : UserCredential) (idToken : string)
  (record : UserRecord) (cookie : string) (claims : DecodedClaims)
  (profile : UserData) :
  signInWithEmailAndPassword client (form_email data) (form_password data)
  = Resolved userCredential ->
  getIdToken userCredential = Resolved idToken ->
  idToken <> "" ->
  getUserByEmail sv (form_email data) = Resolved (Some record) ->
  createSessionCookie sv idToken 604800000 = Resolved cookie ->
  cookie <> "" ->
  verifySessionCookie sv cookie true = Resolved claims ->
  store_fault sv (UsersGet (claims_uid claims)) = None ->
  users w !! claims_uid claims = Some profile ->
  exists w',
    onSubmit client sv sign_in data w
    = (Resolved [toast_success "Signed in successfully."; form_push "/"], w')
    /\ isAuthenticated sv w' = (Resolved true, w')
    /\ getCurrentUser sv w'
       = (Resolved (Some (<["id" := claims_uid claims]> profile)), w').
Proof.
  intros Hsigned Htoken Hne Hknown Hminted Hcookie Hverified Hserved Hprofile.
  unfold onSubmit, try_catch, bind, await.
  rewrite Hsigned, Htoken. apply String.eqb_neq in Hne. rewrite Hne.
  rewrite (signIn_established sv (mkSignIn (form_email data) idToken) w
             record cookie Hknown Hminted).
  eexists. split; [reflexivity|].
  assert (Hsession :
    session_value
      (set_cookieStore
         (insert "session"
            (mkCookie cookie ONE_WEEK true
               (String.eqb (NODE_ENV sv) "production") "/" "lax")) w)
    = Some cookie).
  { unfold session_value. simpl. now rewrite lookup_insert_eq. }
  assert (Hcurrent := getCurrentUser_profile sv _ cookie claims profile
                        Hsession Hcookie Hverified Hserved Hprofile).
  split; [|exact Hcurrent].
  now rewrite (isAuthenticated_unfold sv _ _ Hcurrent).
Qed.

(** X28 run: Ada signs in with her password. *)
Lemma onSubmit_sign_in_then_isAuthenticated_witness :
  exists w',
    onSubmit demo_client demo sign_in (mkFormData "" "ada@example.com" "secret")
      world0
    = (Resolved [toast_success "Signed in successfully."; form_push "/"], w')
    /\ isAuthenticated demo w' = (Resolved true, w')
    /\ getCurrentUser demo w' = (Resolved (Some (<["id" := "u1"]> ada)), w').
Proof.
  apply (onSubmit_sign_in_then_isAuthenticated demo_client demo
           (mkFormData "" "ada@example.com" "secret") world0
           (mkCredential "u1" (Resolved "ada")) "ada"
           (mkUserRecord "u1" "ada@example.com") "cookie-ada" (mkClaims "u1") ada);
    try reflexivity; discriminate.
Defined.

(* ===================================================================== *)
(** * More on the call state machine *)
(* ===================================================================== *)

Lemma default_last_cons {A} (a c : A) (l : list A) :
  default a (last (c :: l)) = default c (last l).
Proof.
  destruct l as [|x l]; [reflexivity|]. rewrite last_cons_cons.
  destruct (last (x :: l)) as [y|] eqn:E; [reflexivity|].
  now apply last_None in E.
Qed.

Lemma dispatch_status (props : AgentProps) (s : AgentState) (ev : Event) :
  callStatus (fst (dispatch props s ev))
  = default (callStatus s) (status_of_event ev).
Proof.
  destruct ev; try reflexivity.
  - simpl. unfold onMessage. now destruct (is_final_transcript m).
  - simpl. unfold handleCall. now destruct (String.eqb (type props) "generate").
Qed.

Lemma run_status (props : AgentProps) (s : AgentState) (evs : list Event) :
  callStatus (fst (run props s evs))
  = default (callStatus s) (last (omap status_of_event evs)).
Proof.
  revert s. induction evs as [|ev evs IH]; intros s; [reflexivity|].
  rewrite run_cons. cbn [fst]. rewrite IH, dispatch_status.
  cbn [omap list_omap]. destruct (status_of_event ev) as [c|]; simpl.
  - symmetry. apply default_last_cons.
  - reflexivity.
Qed.

(** X20.  The last event wins: after any sequence of events the status is
    the one asked for by the last event that asks for one (the Call
    button: CONNECTING; call-start: ACTIVE; call-end and the End button:
    FINISHED), and the status before the sequence when none does. *)
Theorem status_is_set_by_the_last_event
  (props : AgentProps) (s : AgentState) (evs : list Event) :
  callStatus (fst (run props s evs))
  = default (callStatus s) (last (omap status_of_event evs)).
Proof. apply run_status. Qed.

(** After the End button a belated call-start of the channel makes the
    call ACTIVE again. *)
Example call_start_after_End :
  callStatus (fst (run interview_props mount [click_call; click_end; ev_call_start]))
  = ACTIVE.
Proof. reflexivity. Qed.

(** X21.  No way back to INACTIVE: once the status is not INACTIVE, no
    sequence of events makes it INACTIVE again. *)
Theorem INACTIVE_is_never_entered
  (props : AgentProps) (s : AgentState) (evs : list Event) :
  callStatus s <> INACTIVE ->
  callStatus (fst (run props s evs)) <> INACTIVE.
Proof.
  intros Hs. rewrite run_status.
  destruct (last (omap status_of_event evs)) as [c|] eqn:Hlast; [|exact Hs].
  simpl. intros ->.
  apply last_Some_elem_of, list_elem_of_omap in Hlast as (ev & _ & Hev).
  destruct ev; discriminate.
Qed.

(** X21 run: a whole call, from the first click on. *)
Lemma INACTIVE_is_never_entered_witness :
  callStatus
    (fst (run interview_props (fst (run interview_props mount [click_call]))
            (conversation ++ [ev_call_end])))
  <> INACTIVE.
Proof.
  apply (INACTIVE_is_never_entered interview_props
           (fst (run interview_props mount [click_call]))
           (conversation ++ [ev_call_end])).
  vm_compute. discriminate.
Defined.

(** X22.  Errors and speech are inert for the call: an error of the
    channel is logged and leaves the whole state as it was; speech-start
    and speech-end set the speaking indicator and leave the status and
    the transcript as they were; and none of the three runs the feedback
    effect, not even when the status is FINISHED. *)
Theorem errors_and_speech_are_inert
  (props : AgentProps) (s : AgentState) (e : JsError) :
  dispatch props s (ev_error e) = (s, [console_log "Error"])
  /\ dispatch props s ev_speech_start
     = (mkState true (callStatus s) (messages s), [setIsSpeaking true])
  /\ dispatch props s ev_speech_end
     = (mkState false (callStatus s) (messages s), [setIsSpeaking false]).
Proof.
  unfold dispatch, deps_changed. simpl.
  destruct s as [speaking status transcript]. simpl.
  now destruct status.
Qed.

Lemma count_app {A} (test : A -> bool) (l1 l2 : list A) :
  count test (l1 ++ l2) = count test l1 + count test l2.
Proof. unfold count. now rewrite List.filter_app, length_app. Qed.

Lemma count_cons {A} (test : A -> bool) (x : A) (l : list A) :
  count test (x :: l) = (if test x then 1 else 0) + count test l.
Proof. unfold count. simpl. now destruct (test x). Qed.

Lemma feedbackEffect_requests (props : AgentProps) (s : AgentState) :
  count is_vapi_start (feedbackEffect props s) = 0
  /\ count is_vapi_stop (feedbackEffect props s) = 0.
Proof.
  unfold feedbackEffect.
  destruct (callStatus s); try now split.
  now destruct (String.eqb (type props) "generate").
Qed.

Lemma dispatch_requests (props : AgentProps) (s : AgentState) (ev : Event) :
  count is_vapi_start (snd (dispatch props s ev))
  = (if is_click_call ev then 1 else 0)
  /\ count is_vapi_stop (snd (dispatch props s ev))
     = (if is_click_end ev then 1 else 0).
Proof.
  unfold dispatch. cbn [snd]. rewrite !count_app.
  assert (Heffect :
    count is_vapi_start
      (if deps_changed s (handler props ev) (commit s (handler props ev))
       then feedbackEffect props (commit s (handler props ev)) else []) = 0
    /\ count is_vapi_stop
         (if deps_changed s (handler props ev) (commit s (handler props ev))
          then feedbackEffect props (commit s (handler props ev)) else []) = 0).
  { destruct (deps_changed _ _ _); [apply feedbackEffect_requests|now split]. }
  destruct Heffect as [-> ->]. rewrite !Nat.add_0_r.
  destruct ev; try (now split).
  - simpl. unfold onMessage. now destruct (is_final_transcript m).
  - simpl. unfold handleCall. now destruct (String.eqb (type props) "generate").
Qed.

(** X23.  The channel is started by the Call button and stopped by the
    End button, and by nothing else: in every run the number of
    [vapi.start] requests is the number of clicks on Call and the number
    of [vapi.stop] requests is the number of clicks on End.  (A call-end
    of the channel, the feedback effect, a message: none of them starts
    or stops the channel.) *)
Theorem channel_requests_follow_the_buttons
  (props : AgentProps) (s : AgentState) (evs : list Event) :
  count is_vapi_start (snd (run props s evs)) = count is_click_call evs
  /\ count is_vapi_stop (snd (run props s evs)) = count is_click_end evs.
Proof.
  revert s. induction evs as [|ev evs IH]; intros s; [now split|].
  rewrite run_cons. cbn [snd]. rewrite !count_app.
  destruct (IH (fst (dispatch props s ev))) as [-> ->].
  destruct (dispatch_requests props s ev) as [-> ->].
  unfold count. simpl.
  destruct (is_click_call ev), (is_click_end ev); now split.
Qed.

(** ** At the page *)

Lemma page_run_cons (props : AgentProps) (s : AgentState)
  (pe : PageEvent) (pes : list PageEvent) :
  page_run props s (pe :: pes)
  = (fst (page_run props (fst (dispatch props s (page_event s pe))) pes),
     snd (dispatch props s (page_event s pe))
     ++ snd (page_run props (fst (dispatch props s (page_event s pe))) pes)).
Proof.
  cbn [page_run]. destruct (dispatch props s (page_event s pe)) as [s1 d1].
  cbn [fst snd]. now destruct (page_run props s1 pes).
Qed.

(** One page event: a stop is paid for by an ACTIVE status, and an ACTIVE
    status by a call-start of the channel. *)
Lemma page_step_stops (props : AgentProps) (s : AgentState) (pe : PageEvent) :
  from_channel pe = true ->
  count is_vapi_stop (snd (dispatch props s (page_event s pe)))
  + active (fst (dispatch props s (page_event s pe)))
  <= (if reports_start pe then 1 else 0) + active s.
Proof.
  intros Hwf.
  destruct (dispatch_requests props s (page_event s pe)) as [_ ->].
  unfold active. rewrite dispatch_status.
  destruct pe as [ev|]; simpl in *.
  - destruct ev; simpl in *; try discriminate;
      destruct (callStatus s); simpl; lia.
  - unfold click, button. destruct (callStatus s); simpl; lia.
Qed.

(** X24.  At the page the End button is rendered only while the status is
    ACTIVE, and the Call button otherwise.  So in a session at the page,
    every [vapi.stop] request is preceded by a call-start of the channel
    of its own: the requests to stop never outnumber the call-starts
    received. *)
Theorem page_stops_only_started_calls
  (props : AgentProps) (pes : list PageEvent) :
  Forall (fun pe => from_channel pe = true) pes ->
  count is_vapi_stop (snd (page_run props mount pes)) <= count reports_start pes.
Proof.
  intros Hwf.
  assert (Hinv : forall s,
    count is_vapi_stop (snd (page_run props s pes))
    + active (fst (page_run props s pes))
    <= count reports_start pes + active s).
  { induction Hwf as [|pe pes Hpe Hwf IH]; intros s; [simpl; lia|].
    rewrite page_run_cons. cbn [fst snd]. rewrite count_app.
    specialize (IH (fst (dispatch props s (page_event s pe)))).
    pose proof (page_step_stops props s pe Hpe) as Hstep.
    rewrite (count_cons reports_start). lia. }
  specialize (Hinv mount). unfold active in Hinv at 2. simpl in Hinv. lia.
Qed.

(** X24 run: Call, the channel starts, two answers, End. *)
Lemma page_stops_only_started_calls_witness :
  count is_vapi_stop (snd (page_run interview_props mount visit))
  <= count reports_start visit.
Proof.
  apply (page_stops_only_started_calls interview_props visit).
  repeat constructor.
Defined.

(** The visit, evaluated: the second press finds the call ACTIVE and is
    the End button. *)
Example visit_run :
  callStatus (fst (page_run interview_props mount visit)) = FINISHED
  /\ count is_vapi_stop (snd (page_run interview_props mount visit)) = 1.
Proof. split; reflexivity. Qed.

(** X25.  What the transcript panel shows: after any sequence of events
    on the mounted component, the panel is shown exactly when a final
    transcript has been received, and the line it shows is the content of
    the last final transcript received. *)
Theorem panel_shows_last_final_transcript
  (props : AgentProps) (evs : list Event) :
  latestMessage (fst (run props mount evs))
  = content <$> last (final_transcripts evs)
  /\ transcript_shown (fst (run props mount evs))
     = bool_decide (final_transcripts evs <> []).
Proof.
  unfold latestMessage, transcript_shown.
  rewrite (run_messages props mount evs). simpl.
  split; [reflexivity|].
  destruct (final_transcripts evs) as [|line lines].
  - transitivity false; [reflexivity|]. symmetry.
    apply bool_decide_eq_false_2. intros H. now apply H.
  - transitivity true; [reflexivity|]. symmetry.
    now apply bool_decide_eq_true_2.
Qed.

(** ** After the pipeline has answered *)

(** X26.  Where the component goes once [createFeedback] has answered:
    [createFeedback] always resolves, and the component then navigates
    exactly once; to the landing page, after logging the failure, when
    the answer is not a success; to the feedback page of the interview
    when it is a success (the store having given the record a non-empty
    id). *)
Theorem navigation_after_createFeedback
  (sv : Services) (props : AgentProps) (params : CreateFeedbackParams) (w : World) :
  exists r w',
    createFeedback sv params w = (Resolved r, w')
    /\ (feedback_success r = false ->
        handleGenerateFeedback_resume props r
        = [console_log "Error saving feedback"; router_push "/"])
    /\ (feedback_success r = true -> autoId sv (feedback w) <> "" ->
        handleGenerateFeedback_resume props r
        = [router_push ("/interview/" +:+ template (interviewId props)
                        +:+ "/feedback")]).
Proof.
  destruct (createFeedback_outcome sv params w) as (r & w' & Hrun & Hcases).
  exists r, w'. split; [exact Hrun|].
  unfold handleGenerateFeedback_resume.
  destruct Hcases as [[-> _]|(object & _ & -> & _)]; simpl.
  - split; [reflexivity|discriminate].
  - split; [discriminate|].
    intros _ Hid. apply String.eqb_neq in Hid. now rewrite Hid.
Qed.

(** X26 run: the pipeline succeeds for the interview ["i1"], and fails
    while the store is down. *)
Lemma navigation_after_createFeedback_witness :
  handleGenerateFeedback_resume interview_props
    (mkFeedbackResult true (Some "fb0"))
  = [router_push "/interview/i1/feedback"]
  /\ handleGenerateFeedback_resume interview_props (mkFeedbackResult false None)
     = [console_log "Error saving feedback"; router_push "/"].
Proof.
  split.
  - destruct (navigation_after_createFeedback demo interview_props
                (mkCreateFeedback (Some "i1") (Some "u1") [mkSaved User "Hello"])
                world0)
      as (r & w' & Hrun & _ & Hsuccess).
    injection Hrun as <- _. apply Hsuccess; [reflexivity|discriminate].
  - destruct (navigation_after_createFeedback offline interview_props
                (mkCreateFeedback (Some "i1") (Some "u1") [mkSaved User "Hello"])
                world0)
      as (r & w' & Hrun & Hfailure & _).
    injection Hrun as <- _. apply Hfailure. reflexivity.
Defined.

(** X27.  Messages after the end of the call: while the status is
    FINISHED in a call whose type is not "generate", a final transcript
    that still arrives is appended and runs the feedback effect again, so
    [createFeedback] is invoked once more, with the longer transcript; a
    message that is not a final transcript invokes nothing. *)
Theorem final_transcript_while_FINISHED_invokes_again
  (props : AgentProps) (s : AgentState) (m : Message) :
  type props <> "generate" ->
  callStatus s = FINISHED ->
  feedback_calls (snd (dispatch props s (ev_message m)))
  = if decide (FinalTranscript m)
    then [mkCreateFeedback (interviewId props) (userId props)
            (messages s ++ [saved_of m])]
    else [].
Proof.
  intros Htype Hs. apply String.eqb_neq in Htype.
  unfold dispatch, handler, onMessage, deps_changed.
  destruct (decide (FinalTranscript m)) as [F|F].
  - apply is_final_transcript_spec in F. rewrite F. simpl.
    rewrite orb_true_r. unfold feedbackEffect. simpl. rewrite Hs, Htype.
    reflexivity.
  - destruct (is_final_transcript m) eqn:E.
    + exfalso. apply F. now apply is_final_transcript_spec.
    + simpl. rewrite Hs. reflexivity.
Qed.

(** X27 run: the candidate's last words arrive after the End button. *)
Lemma final_transcript_while_FINISHED_invokes_again_witness :
  feedback_calls
    (snd (dispatch interview_props
            (fst (run interview_props mount
                    [click_call; ev_call_start; final User "Hello"; click_end]))
            (final User "Bye")))
  = [mkCreateFeedback (Some "i1") (Some "u1")
       [mkSaved User "Hello"; mkSaved User "Bye"]].
Proof.
  apply (final_transcript_while_FINISHED_invokes_again interview_props
           (fst (run interview_props mount
                   [click_call; ev_call_start; final User "Hello"; click_end]))
           (mkMessage "transcript" (Some "final") User "Bye"));
    [discriminate | reflexivity].
Defined.
